(** * Sensor API: ingestion over REST and MQTT, latest-reading lookup

    A shallow embedding of the two intake handlers and the retrieval
    handler of the sensor service, together with the parts of their
    collaborators (zod schema, mongoose model, MongoDB collection, MQTT
    subscription) that decide what the handlers do.

    Source files embedded here:
    - models/Sensor.js            (schema, indexes)           -> [Sensor]
    - controllers/sensorController.js (ingestReading,
      getLatestReading, ingestSchema)                         -> [Zod], [Controller]
    - config/mqtt.js              (setupMQTT)                 -> [Mqtt]
    - server.js                   (ENABLE_MQTT switch)        -> [Mqtt.subscriptions]

    Naming: the specification speaks of [device_id] and [value]; the code
    calls them [deviceId] and [temperature], and the bus topic is
    [iot/sensor/+/temperature].  The embedding keeps the code's names. *)

From Stdlib Require Import Ascii String QArith ZArith.
From Stdlib Require Import Permutation Sorted.
From Stdlib Require SpecFloat.
From stdpp Require Import base strings gmap list.

Set Warnings "-register-all".

(* ===================================================================== *)
(** * JavaScript values *)
(* ===================================================================== *)

Module JS.

(** A JavaScript number.  The handlers never compute with numbers: they
    test their type, test for NaN, parse them out of text and compare
    them.  A finite double is kept as the rational it stands for, and the
    two zeros are one value.  The numbers of a parsed body are taken as
    [JSON.parse] made them; [parseFloat] rounds what it reads to the
    nearest double. *)
Inductive number : Type :=
| Fin (q : Q)
| NaN
| PosInf
| NegInf.

Definition isNaN (n : number) : bool :=
  match n with NaN => true | _ => false end.

(** [Date.now()] is an integer count of milliseconds. *)
Definition of_millis (ms : Z) : number := Fin (inject_Z ms).

(** What [JSON.parse], [express.json()] and property access produce.  The
    text of a [VString] is held in UTF-8. *)
Inductive value : Type :=
| VUndefined
| VNull
| VBool (b : bool)
| VNumber (n : number)
| VString (s : string)
| VArray (l : list value)
| VObject (m : gmap string value).

(** [o.k] for an own data property [k].  [None] is the TypeError raised
    when [o] is [null] or [undefined]; on strings, numbers, booleans and
    arrays a key that is no built-in member reads as [undefined]. *)
Definition getProp (o : value) (k : string) : option value :=
  match o with
  | VUndefined | VNull => None
  | VObject m => Some (default VUndefined (m !! k))
  | _ => Some VUndefined
  end.

(** ** [String.prototype.split] with a one-character separator *)
Fixpoint split (sep : ascii) (s : string) : list string :=
  match s with
  | EmptyString => [EmptyString]
  | String c s' =>
      if Ascii.eqb c sep then EmptyString :: split sep s'
      else match split sep s' with
           | [] => [String c EmptyString]
           | h :: t => String c h :: t
           end
  end.

(** ** [parseFloat] *)

Definition is_digit (c : ascii) : bool :=
  let n := nat_of_ascii c in (48 <=? n)%nat && (n <=? 57)%nat.

Definition digit_val (c : ascii) : Z := Z.of_nat (nat_of_ascii c - 48).

(** Text is held in UTF-8.  StrWhiteSpaceChar is the white space and the
    line terminators of ECMAScript; by the length of their encoding:
    - one byte: TAB, LF, VT, FF, CR, SPACE;
    - two bytes: U+00A0;
    - three bytes: U+1680, U+2000 to U+200A, U+2028, U+2029, U+202F,
      U+205F, U+3000, U+FEFF. *)
Definition is_space (c : ascii) : bool :=
  let n := nat_of_ascii c in
  ((9 <=? n)%nat && (n <=? 13)%nat) || (n =? 32)%nat.

Definition is_space2 (c0 c1 : ascii) : bool :=
  (nat_of_ascii c0 =? 194)%nat && (nat_of_ascii c1 =? 160)%nat.

Definition is_space3 (c0 c1 c2 : ascii) : bool :=
  let n0 := nat_of_ascii c0 in
  let n1 := nat_of_ascii c1 in
  let n2 := nat_of_ascii c2 in
  ((n0 =? 225)%nat && (n1 =? 154)%nat && (n2 =? 128)%nat)
  || ((n0 =? 226)%nat && (n1 =? 128)%nat
      && (((128 <=? n2)%nat && (n2 <=? 138)%nat)
          || (n2 =? 168)%nat || (n2 =? 169)%nat || (n2 =? 175)%nat))
  || ((n0 =? 226)%nat && (n1 =? 129)%nat && (n2 =? 159)%nat)
  || ((n0 =? 227)%nat && (n1 =? 128)%nat && (n2 =? 128)%nat)
  || ((n0 =? 239)%nat && (n1 =? 187)%nat && (n2 =? 191)%nat).

Fixpoint trimStart (s : string) : string :=
  match s with
  | String c0 s0 =>
      if is_space c0 then trimStart s0
      else match s0 with
           | String c1 s1 =>
               if is_space2 c0 c1 then trimStart s1
               else match s1 with
                    | String c2 s2 =>
                        if is_space3 c0 c1 c2 then trimStart s2 else s
                    | EmptyString => s
                    end
           | EmptyString => s
           end
  | EmptyString => s
  end.

(** The longest prefix of decimal digits, and what follows it. *)
Fixpoint take_digits (s : string) : list ascii * string :=
  match s with
  | String c s' =>
      if is_digit c
      then let '(ds, r) := take_digits s' in (c :: ds, r)
      else ([], s)
  | EmptyString => ([], s)
  end.

Definition digits_val (ds : list ascii) : Z :=
  foldl (fun acc c => (10 * acc + digit_val c)%Z) 0%Z ds.

Definition take_sign (s : string) : Z * string :=
  match s with
  | String "+" r => (1%Z, r)
  | String "-" r => ((-1)%Z, r)
  | _ => (1%Z, s)
  end.

(** [m * 10^k] rounded to the nearest binary64 value, ties to even: an
    integer is rounded as it is, a fraction as the quotient of two
    integers.  Beyond the range the result is an infinity, below it a
    zero. *)
Definition decimal_to_double (m k : Z) : SpecFloat.spec_float :=
  if (0 <=? k)%Z
  then SpecFloat.binary_normalize 53 1024 (m * 10 ^ k) 0 false
  else
    let den := SpecFloat.S754_finite false (Z.to_pos (10 ^ (- k))) 0 in
    match m with
    | Z0 => SpecFloat.S754_zero false
    | Zpos p => SpecFloat.SFdiv 53 1024 (SpecFloat.S754_finite false p 0) den
    | Zneg p => SpecFloat.SFdiv 53 1024 (SpecFloat.S754_finite true p 0) den
    end.

(** The number a binary64 value stands for. *)
Definition of_double (x : SpecFloat.spec_float) : number :=
  match x with
  | SpecFloat.S754_zero _ => Fin 0
  | SpecFloat.S754_infinity s => if s then NegInf else PosInf
  | SpecFloat.S754_nan => NaN
  | SpecFloat.S754_finite s m e =>
      let z := if s then Zneg m else Zpos m in
      if (0 <=? e)%Z then Fin (inject_Z (z * 2 ^ e))
      else Fin (Qred (Qmake z (Z.to_pos (2 ^ (- e)))))
  end.

(** The exponent part [e±ddd], when one is there in full. *)
Definition take_exponent (s : string) : Z :=
  match s with
  | String c r =>
      if Ascii.eqb c "e" || Ascii.eqb c "E" then
        let '(sg, r') := take_sign r in
        match take_digits r' with
        | ([], _) => 0%Z
        | (ds, _) => (sg * digits_val ds)%Z
        end
      else 0%Z
  | EmptyString => 0%Z
  end.

(** [parseFloat] on a string: leading white space is dropped, then the
    longest prefix that is a StrDecimalLiteral is converted to the
    nearest double; [NaN] when there is none.  Anything after that
    prefix is ignored. *)
Definition parseFloat_string (s : string) : number :=
  let '(sg, s1) := take_sign (trimStart s) in
  if String.prefix "Infinity" s1 then
    (if (0 <? sg)%Z then PosInf else NegInf)
  else
    let '(ip, r1) := take_digits s1 in
    let '(fp, r2) :=
      match r1 with
      | String "." r => take_digits r
      | _ => ([], r1)
      end in
    match ip ++ fp with
    | [] => NaN
    | ds =>
        of_double (decimal_to_double
                     (sg * digits_val ds)
                     (take_exponent r2 - Z.of_nat (length fp)))
    end.

(** [parseFloat(v)] is [parseFloat(String(v))].
    - [String(n)] of a number parses back to [n];
    - [String(undefined)], [String(null)], [String(true)] and the
      [[object Object]] of a plain object have no numeric prefix;
    - an array prints as its elements joined by commas, [null] and
      [undefined] elements printing as nothing, so only the first
      element can contribute a numeric prefix. *)
Fixpoint parseFloat (v : value) : number :=
  match v with
  | VNumber n => n
  | VString s => parseFloat_string s
  | VArray (x :: _) => parseFloat x
  | _ => NaN
  end.

(** ** Order of numbers in a sort

    The collection orders numbers numerically, with [NaN] below every
    other number and the infinities at the two ends. *)
Definition num_leb (a b : number) : bool :=
  match a, b with
  | NaN, _ => true
  | _, NaN => false
  | NegInf, _ => true
  | _, NegInf => false
  | _, PosInf => true
  | PosInf, _ => false
  | Fin x, Fin y => Qle_bool x y
  end.

Definition num_ltb (a b : number) : bool := negb (num_leb b a).

Definition num_lt (a b : number) : Prop := num_ltb a b = true.

(** Same position in the sort order ([===] on numbers that are not NaN). *)
Definition num_same (a b : number) : Prop :=
  num_leb a b = true /\ num_leb b a = true.

End JS.


Import JS.
Open Scope string_scope.

(* ===================================================================== *)
(** * Exceptions and the result of a fallible step *)
(* ===================================================================== *)

(** What the handlers' [try] blocks can catch, by [error.name]. *)
Inductive exn : Type :=
| ZodError (errors : list string)
    (** thrown by [ingestSchema.parse]; one message per issue *)
| ValidationError (errors : list string)
    (** thrown by the model on [save]; one message per invalid path *)
| MongoError (reason : string)
    (** the collection refused or could not take the operation *)
| SyntaxError
    (** thrown by [JSON.parse] *)
| TypeError.
    (** a property read on [null] or [undefined] *)

Inductive result (A : Type) : Type :=
| Return (a : A)
| Throw (e : exn).
Arguments Return {A} a.
Arguments Throw {A} e.

#[global] Instance result_ret : MRet result := fun A a => Return a.

#[global] Instance result_bind : MBind result := fun A B k m =>
  match m with
  | Return a => k a
  | Throw e => Throw e
  end.

Definition of_option {A : Type} (o : option A) (e : exn) : result A :=
  match o with
  | Some a => Return a
  | None => Throw e
  end.

(** A text between double quotes. *)
Definition quoted (s : string) : string :=
  String (ascii_of_nat 34) (s +:+ String (ascii_of_nat 34) EmptyString).

(** [msgs.join(", ")] *)
Definition join (msgs : list string) : string := String.concat ", " msgs.

(* ===================================================================== *)
(** * The zod schema of the REST body

    The controller is written against zod 3 ([required_error],
    [invalid_type_error], [error.errors]); its rules are the ones
    embedded here. *)
(* ===================================================================== *)

Module Zod.

(** zod's [getParsedType], as a word of its messages. *)
Definition parsedType (v : value) : string :=
  match v with
  | VUndefined => "undefined"
  | VNull => "null"
  | VBool _ => "boolean"
  | VNumber n => if isNaN n then "nan" else "number"
  | VString _ => "string"
  | VArray _ => "array"
  | VObject _ => "object"
  end.

(** The default message of an [invalid_type] issue. *)
Definition invalid_type (expected : string) (v : value) : string :=
  match v with
  | VUndefined => "Required"
  | _ => "Expected " +:+ expected +:+ ", received " +:+ parsedType v
  end.

(** A field parser yields the parsed value or the messages of its
    issues. *)
Definition parser (A : Type) : Type := value -> A + list string.

(** [z.string().min(1, "deviceId cannot be empty")] *)
Definition deviceId : parser string := fun v =>
  match v with
  | VString s =>
      if (1 <=? String.length s)%nat then inl s
      else inr ["deviceId cannot be empty"]
  | _ => inr [invalid_type "string" v]
  end.

(** [z.number({ required_error, invalid_type_error })]: the value must
    have type number and not be NaN; an infinity passes (only
    [.finite()], which the schema does not ask for, would refuse it). *)
Definition temperature : parser number := fun v =>
  match v with
  | VNumber n =>
      if isNaN n then inr ["temperature must be a number"] else inl n
  | VUndefined => inr ["temperature is required"]
  | _ => inr ["temperature must be a number"]
  end.

(** [z.number()] *)
Definition z_number : parser number := fun v =>
  match v with
  | VNumber n => if isNaN n then inr [invalid_type "number" v] else inl n
  | _ => inr [invalid_type "number" v]
  end.

(** [z.number().optional().default(() => Date.now())]: the default
    replaces [undefined] before the inner schema runs. *)
Definition timestamp (now : Z) : parser number := fun v =>
  match v with
  | VUndefined => z_number (VNumber (of_millis now))
  | _ => z_number v
  end.

Record validated : Type := {
  v_deviceId : string;
  v_temperature : number;
  v_timestamp : number;
}.

Definition issues {A : Type} (r : A + list string) : list string :=
  match r with inl _ => [] | inr msgs => msgs end.

(** [ingestSchema.parse(body)].  A [z.object] reads its own keys from
    the input, runs every field parser, and keeps nothing else: keys
    outside the shape are stripped.  [now] is what [Date.now()] returns
    if the default of [timestamp] is evaluated. *)
Definition ingestSchema_parse (now : Z) (body : value) : result validated :=
  match body with
  | VObject m =>
      let field k := default VUndefined (m !! k) in
      let d := deviceId (field "deviceId") in
      let t := temperature (field "temperature") in
      let ts := timestamp now (field "timestamp") in
      match d, t, ts with
      | inl d', inl t', inl ts' =>
          Return {| v_deviceId := d'; v_temperature := t';
                    v_timestamp := ts' |}
      | _, _, _ => Throw (ZodError (issues d ++ issues t ++ issues ts))
      end
  | _ => Throw (ZodError [invalid_type "object" body])
  end.

End Zod.

(* ===================================================================== *)
(** * The Sensor model and its collection *)
(* ===================================================================== *)

Module Sensor.

(** A stored document: the four paths of [sensorSchema] and the [_id]
    the model generates.  (The [__v] counter mongoose adds is constant
    and carries no data.)  [createdAt] is a date, kept in
    milliseconds. *)
Record doc : Type := {
  _id : nat;
  deviceId : string;
  temperature : number;
  timestamp : number;
  createdAt : Z;
}.

(** The object literal given to [new Sensor(...)] and
    [Sensor.create(...)].  Both call sites pass the same three keys;
    [deviceId] can be [undefined] on the bus path, the other two are
    always numbers (so the schema's own default for [timestamp] is
    never used). *)
Record init : Type := {
  i_deviceId : option string;
  i_temperature : number;
  i_timestamp : number;
}.

(** Casting a number to the schema type [Number] fails on NaN. *)
Definition cast_number (path : string) (n : number) : list string :=
  if isNaN n
  then ["Cast to Number failed for value " +:+ quoted "NaN"
          +:+ " (type number) at path " +:+ quoted path]
  else [].

(** [required] on a [String] path refuses [undefined] and the empty
    string. *)
Definition required_string (msg : string) (s : option string) : list string :=
  match s with
  | Some (String _ _) => []
  | _ => [msg]
  end.

(** Document validation, run by [save] before anything is written.  The
    errors of the casts, met when the document was built, come before
    those of the validators. *)
Definition validate (i : init) : list string :=
  cast_number "temperature" (i_temperature i)
  ++ cast_number "timestamp" (i_timestamp i)
  ++ required_string "deviceId is required" (i_deviceId i).

(** ** Indexes declared by the schema *)

Inductive path : Type := PdeviceId | Ptimestamp.

Record index : Type := {
  keys : list (path * Z);  (** path and direction, 1 or -1 *)
  unique : bool;
}.

(** [deviceId: { index: true }] and
    [sensorSchema.index({ deviceId: 1, timestamp: -1 })].  Neither
    declaration sets [unique]. *)
Definition indexes : list index :=
  [ {| keys := [(PdeviceId, 1%Z)]; unique := false |};
    {| keys := [(PdeviceId, 1%Z); (Ptimestamp, (-1)%Z)]; unique := false |} ].

Definition same_at (p : path) (a b : doc) : bool :=
  match p with
  | PdeviceId => bool_decide (deviceId a = deviceId b)
  | Ptimestamp => num_leb (timestamp a) (timestamp b)
                  && num_leb (timestamp b) (timestamp a)
  end.

Definition same_key (ix : index) (a b : doc) : bool :=
  forallb (fun k => same_at (fst k) a b) (keys ix).

(** A write is refused with a duplicate-key error when an index marked
    unique already holds the key of the new document. *)
Definition duplicate_key (r : doc) (coll : list doc) : bool :=
  existsb (fun ix => unique ix && existsb (same_key ix r) coll) indexes.

(** ** The collection *)

(** [db] lists the documents in the order they were written;
    [nextId] is the supply of fresh [_id]s; [online] tells whether the
    connection to the database is up; [ties] is the order in which the
    database hands out documents whose sort keys are equal, which no
    query of the handlers fixes: [ties a b] tells whether [a], written
    before [b], also comes before it. *)
Record World : Type := {
  db : list doc;
  nextId : nat;
  online : bool;
  ties : doc -> doc -> bool;
}.

Definition insertOne (r : doc) (w : World) : result World :=
  if negb (online w) then Throw (MongoError "not connected")
  else if duplicate_key r (db w) then Throw (MongoError "E11000 duplicate key")
  else Return {| db := db w ++ [r]; nextId := S (nextId w);
                 online := online w; ties := ties w |}.

(** [new Sensor(i).save()]; [Sensor.create(i)] is the same thing.
    Construction fills [_id] and the default of [createdAt] (a call of
    [Date.now], whose reading is [now]); saving validates and then
    inserts. *)
Definition save (i : init) (now : Z) (w : World) : result (doc * World) :=
  match validate i, i_deviceId i with
  | [], Some d =>
      let r := {| _id := nextId w; deviceId := d;
                  temperature := i_temperature i;
                  timestamp := i_timestamp i;
                  createdAt := now |} in
      w' ← insertOne r w;
      Return (r, w')
  | errors, _ => Throw (ValidationError errors)
  end.

(** ** [findOne(filter).sort({ timestamp: -1 }).limit(1)] *)

(** Insertion into a list sorted by descending [timestamp]: the new
    element goes in front of the first smaller one and behind every
    greater one; where it meets an equal one, [tie] decides. *)
Fixpoint insert_desc (tie : doc -> doc -> bool) (r : doc) (l : list doc)
  : list doc :=
  match l with
  | [] => [r]
  | x :: l' =>
      if num_ltb (timestamp x) (timestamp r) then r :: l
      else if num_ltb (timestamp r) (timestamp x)
           then x :: insert_desc tie r l'
           else if tie r x then r :: l else x :: insert_desc tie r l'
  end.

(** The query sorts on [timestamp] alone; the order of documents with
    equal timestamps is the database's. *)
Definition sort_desc (tie : doc -> doc -> bool) (l : list doc) : list doc :=
  foldr (insert_desc tie) [] l.

Definition find (d : string) (coll : list doc) : list doc :=
  filter (fun r => deviceId r = d) coll.

Definition findOne_latest (d : string) (w : World) : result (option doc) :=
  if negb (online w) then Throw (MongoError "not connected")
  else Return (head (sort_desc (ties w) (find d (db w)))).

End Sensor.

(* ===================================================================== *)
(** * The REST handlers *)
(* ===================================================================== *)

Module Controller.
Import Sensor.

(** The two bodies the handlers send. *)
Inductive reply : Type :=
| Success (data : doc)        (** [{ success: true, data }] *)
| Failure (error : string).   (** [{ success: false, error }] *)

Record response : Type := {
  status : nat;
  json : reply;
}.

(** A handler answers the request or hands the error to [next]. *)
Inductive outcome : Type :=
| Responded (r : response)
| Next (e : exn).

(** The [catch] block of [ingestReading]. *)
Definition ingest_catch (e : exn) : outcome :=
  match e with
  | ZodError errors =>
      Responded {| status := 400; json := Failure (join errors) |}
  | ValidationError errors =>
      Responded {| status := 400; json := Failure (join errors) |}
  | _ => Next e
  end.

(** [exports.ingestReading].  [now_ts] is the reading of [Date.now()]
    in the default of the schema's [timestamp] (taken only when the
    body has none), [now_created] the one in the default of
    [createdAt].  The [logger.info] line has no part in the answer or
    the store and is left out. *)
Definition ingestReading (now_ts now_created : Z) (body : value) (w : World)
  : World * outcome :=
  let attempt :=
    validated ← Zod.ingestSchema_parse now_ts body;
    save {| i_deviceId := Some (Zod.v_deviceId validated);
            i_temperature := Zod.v_temperature validated;
            i_timestamp := Zod.v_timestamp validated |} now_created w in
  match attempt with
  | Return (reading, w') =>
      (w', Responded {| status := 201; json := Success reading |})
  | Throw e => (w, ingest_catch e)
  end.

(** [exports.getLatestReading], for the route parameter [deviceId]. *)
Definition getLatestReading (deviceId : string) (w : World) : outcome :=
  match findOne_latest deviceId w with
  | Return None =>
      Responded {| status := 404;
                   json := Failure "No readings found for this device" |}
  | Return (Some reading) =>
      Responded {| status := 200; json := Success reading |}
  | Throw e => Next e
  end.

End Controller.

(* ===================================================================== *)
(** * The MQTT subscriber *)
(* ===================================================================== *)

Module Mqtt.
Import Sensor.

(** The topic filter given to [client.subscribe]. *)
Definition subscription : string := "iot/sensor/+/temperature".

(** [setupMQTT] is called only when [ENABLE_MQTT] is the text [true]. *)
Definition subscriptions (ENABLE_MQTT : option string) : list string :=
  if decide (ENABLE_MQTT = Some "true") then [subscription] else [].

(** Matching of a topic against a filter, level by level: [+] stands
    for exactly one level, [#] for all that remain. *)
Fixpoint levels_match (filter topic : list string) : bool :=
  match filter, topic with
  | [], [] => true
  | f :: filter', _ =>
      if String.eqb f "#" then true
      else match topic with
           | t :: topic' =>
               (String.eqb f "+" || String.eqb f t)
               && levels_match filter' topic'
           | [] => false
           end
  | [], _ :: _ => false
  end.

Definition topic_matches (filter topic : string) : bool :=
  levels_match (split "/" filter) (split "/" topic).

(** What the message handler writes to the log. *)
Inductive log : Type :=
| Saved (deviceId : option string) (temp : value)
    (** [logger.info({ deviceId, temp }, "MQTT reading saved")] *)
| Failed (error : exn) (topic : string).
    (** [logger.error({ error, topic }, "MQTT processing failed")] *)

(** The ["message"] handler.  [parsed] is the outcome of
    [JSON.parse(message.toString())], [None] when it throws; [now_ts]
    is the reading of [Date.now()] in the argument of [Sensor.create],
    [now_created] the one in the default of [createdAt]. *)
Definition onMessage (now_ts now_created : Z)
    (topic : string) (parsed : option value) (w : World) : World * log :=
  let parts := split "/" topic in
  let deviceId := parts !! 2%nat in
  let attempt :=
    data ← of_option parsed SyntaxError;
    temp ← of_option (getProp data "temperature") TypeError;
    '(_, w') ← save {| i_deviceId := deviceId;
                       i_temperature := parseFloat temp;
                       i_timestamp := of_millis now_ts |} now_created w;
    Return (temp, w') in
  match attempt with
  | Return (temp, w') => (w', Saved deviceId temp)
  | Throw e => (w, Failed e topic)
  end.

(** A message published on [topic] reaches the handler when the client
    holds a subscription whose filter matches the topic. *)
Definition publish (ENABLE_MQTT : option string) (now_ts now_created : Z)
    (topic : string) (parsed : option value) (w : World)
  : World * option log :=
  if existsb (fun f => topic_matches f topic) (subscriptions ENABLE_MQTT)
  then let '(w', l) := onMessage now_ts now_created topic parsed w in
       (w', Some l)
  else (w, None).

End Mqtt.


Import Sensor Controller.

(* ===================================================================== *)
(** * Vocabulary of the statements *)
(* ===================================================================== *)

(** The field [k] of a request or message body, [undefined] when the body
    is no object or has no such key. *)
Definition field (body : value) (k : string) : value :=
  match body with
  | VObject m => default VUndefined (m !! k)
  | _ => VUndefined
  end.

(** The topic a device publishes on. *)
Definition topic_of (d : string) : string :=
  "iot/sensor/" +:+ d +:+ "/temperature".

(** A device identifier that fits in one topic level. *)
Fixpoint one_level (d : string) : bool :=
  match d with
  | EmptyString => true
  | String c d' => negb (Ascii.eqb c "/") && one_level d'
  end.

(** The store after one more document. *)
Definition with_doc (r : doc) (w : World) : World :=
  {| db := db w ++ [r]; nextId := S (nextId w); online := online w;
     ties := ties w |}.

(** Every stored [_id] was drawn from the supply. *)
Definition wf (w : World) : Prop :=
  Forall (fun r => (_id r < nextId w)%nat) (db w).

(** What the query of [getLatestReading] asks of its answer: a document
    of the device that no other document of the device exceeds in
    [timestamp]. *)
Definition is_latest (d : string) (coll : list doc) (r : doc) : Prop :=
  r ∈ coll /\ deviceId r = d /\
  forall r', r' ∈ coll -> deviceId r' = d ->
             num_leb (timestamp r') (timestamp r) = true.

(** [needle] occurs in [hay]. *)
Fixpoint contains (needle hay : string) : bool :=
  String.prefix needle hay ||
  match hay with
  | EmptyString => false
  | String _ hay' => contains needle hay'
  end.

(** The document that [save] builds. *)
Definition built (i : init) (d : string) (now : Z) (w : World) : doc :=
  {| _id := nextId w; deviceId := d; temperature := i_temperature i;
     timestamp := i_timestamp i; createdAt := now |}.

(** The [timestamp] field of a body that carries [ot], and the timestamp
    the schema makes of it. *)
Definition timestamp_field (ot : option number) : value :=
  from_option VNumber VUndefined ot.

Definition stamp (now : Z) (ot : option number) : number :=
  default (of_millis now) ot.

(** A body the schema accepts: a non-empty text, a number, and a number
    or nothing. *)
Record valid_body (body : value) (d : string) (v : number)
    (ot : option number) : Prop := {
  vb_deviceId : field body "deviceId" = VString d;
  vb_nonempty : d <> "";
  vb_temperature : field body "temperature" = VNumber v;
  vb_number : isNaN v = false;
  vb_timestamp : field body "timestamp" = timestamp_field ot;
  vb_stamp : forall t, ot = Some t -> isNaN t = false;
}.

(** The document an accepted body becomes. *)
Definition ingested (now_ts now_created : Z) (d : string) (v : number)
    (ot : option number) (w : World) : doc :=
  {| _id := nextId w; deviceId := d; temperature := v;
     timestamp := stamp now_ts ot; createdAt := now_created |}.

(** The document an accepted message becomes. *)
Definition received (now_ts now_created : Z) (d : string) (t : value)
    (w : World) : doc :=
  {| _id := nextId w; deviceId := d; temperature := parseFloat t;
     timestamp := of_millis now_ts; createdAt := now_created |}.

(** A stored document as the handlers leave it: a device, and two
    numbers that are numbers. *)
Definition sound_doc (r : doc) : Prop :=
  deviceId r <> "" /\ isNaN (temperature r) = false
  /\ isNaN (timestamp r) = false.

Definition sound (w : World) : Prop := Forall sound_doc (db w).

(** No two stored documents share an [_id]. *)
Definition distinct_ids (w : World) : Prop := NoDup (map _id (db w)).

(** The order the query asks for: [a] may come before [b]. *)
Definition desc (a b : doc) : Prop :=
  num_leb (timestamp b) (timestamp a) = true.

(** The 404 of [getLatestReading]. *)
Definition not_found : outcome :=
  Responded {| status := 404;
               json := Failure "No readings found for this device" |}.

(** A request body with the three fields, for the examples. *)
Definition stamped (d : string) (t ts : Q) : value :=
  VObject {[ "deviceId" := VString d; "temperature" := VNumber (Fin t);
             "timestamp" := VNumber (Fin ts) ]}.

(** An empty, connected store that hands out equal keys in the order
    they were written (the order of equal keys along an index). *)
Definition empty_world : World :=
  {| db := []; nextId := 0; online := true; ties := fun _ _ => true |}.

(** The same store, handing out equal keys last written first. *)
Definition newest_first (w : World) : World :=
  {| db := db w; nextId := nextId w; online := online w;
     ties := fun _ _ => false |}.

(** ** Stores of the examples *)

(** Two readings of [s1], the later one ingested first, with a reading
    of another device in between. *)
Definition out_of_order : World :=
  let w1 := fst (ingestReading 0 9001 (stamped "s1" 21 2000) empty_world) in
  let w2 := fst (ingestReading 0 9002 (stamped "s9" 50 3000) w1) in
  fst (ingestReading 0 9003 (stamped "s1" 20 1000) w2).

(** One reading of [s1], stamped 2000. *)
Definition one_reading : World :=
  fst (ingestReading 0 9001 (stamped "s1" 21 2000) empty_world).

(** Two readings of [s1] with the same timestamp, written one after the
    other. *)
Definition tied : World :=
  let w1 := fst (ingestReading 0 1000 (stamped "s1" 20 5000) empty_world) in
  fst (ingestReading 0 2000 (stamped "s1" 21 5000) w1).

(* ===================================================================== *)
(** * Numbers: the sort order *)
(* ===================================================================== *)

Section NumberOrder.

Lemma num_leb_refl (a : number) : num_leb a a = true.
Proof.
  destruct a; simpl; try reflexivity.
  apply Qle_bool_iff, Qle_refl.
Qed.

Lemma num_leb_total (a b : number) :
  num_leb a b = true \/ num_leb b a = true.
Proof.
  destruct a as [x| | |], b as [y| | |]; simpl; auto.
  destruct (Qlt_le_dec y x) as [H|H].
  - right. apply Qle_bool_iff, Qlt_le_weak, H.
  - left. apply Qle_bool_iff, H.
Qed.

Lemma num_leb_trans (a b c : number) :
  num_leb a b = true -> num_leb b c = true -> num_leb a c = true.
Proof.
  destruct a as [x| | |], b as [y| | |], c as [z| | |]; simpl;
    try reflexivity; try discriminate.
  rewrite !Qle_bool_iff. apply Qle_trans.
Qed.

Lemma num_ltb_leb (a b : number) :
  num_ltb a b = true -> num_leb a b = true.
Proof.
  unfold num_ltb. intros H. apply negb_true_iff in H.
  destruct (num_leb_total a b) as [Hab|Hba]; [exact Hab | congruence].
Qed.

Lemma num_lt_not_leb (a b : number) :
  num_lt a b -> num_leb b a = false.
Proof. unfold num_lt, num_ltb. intros H. now apply negb_true_iff in H. Qed.

End NumberOrder.

(* ===================================================================== *)
(** * The latest-reading query *)
(* ===================================================================== *)

Section LatestQuery.

Variable tie : doc -> doc -> bool.

Lemma insert_desc_perm (r : doc) (l : list doc) :
  Permutation (insert_desc tie r l) (r :: l).
Proof.
  induction l as [|x l IH]; simpl; [reflexivity|].
  destruct (num_ltb (timestamp x) (timestamp r)); [reflexivity|].
  destruct (num_ltb (timestamp r) (timestamp x));
    [rewrite IH; apply perm_swap|].
  destruct (tie r x); [reflexivity | rewrite IH; apply perm_swap].
Qed.

Lemma insert_desc_sorted (r : doc) (l : list doc) :
  StronglySorted desc l -> StronglySorted desc (insert_desc tie r l).
Proof.
  induction l as [|x l IH]; simpl; intros Hs; [repeat constructor|].
  inversion Hs as [|? ? Hl Hx]; subst.
  assert (Hfront : num_leb (timestamp x) (timestamp r) = true ->
                   StronglySorted desc (r :: x :: l)).
  { intros Hle. constructor; [exact Hs|]. constructor; [exact Hle|].
    eapply Forall_impl; [exact Hx|]. unfold desc. simpl. intros y Hy.
    eapply num_leb_trans; [exact Hy | exact Hle]. }
  assert (Hback : num_leb (timestamp r) (timestamp x) = true ->
                  StronglySorted desc (x :: insert_desc tie r l)).
  { intros Hle. constructor; [apply IH, Hl|].
    rewrite (insert_desc_perm r l). constructor; [exact Hle | exact Hx]. }
  destruct (num_ltb (timestamp x) (timestamp r)) eqn:H1;
    [apply Hfront, num_ltb_leb, H1|].
  destruct (num_ltb (timestamp r) (timestamp x)) eqn:H2;
    [apply Hback, num_ltb_leb, H2|].
  unfold num_ltb in H1, H2.
  apply negb_false_iff in H1. apply negb_false_iff in H2.
  destruct (tie r x); [apply Hfront, H2 | apply Hback, H1].
Qed.

Lemma sort_desc_perm (l : list doc) : Permutation (sort_desc tie l) l.
Proof.
  induction l as [|a l IH]; [reflexivity|].
  unfold sort_desc in *. simpl. rewrite insert_desc_perm. now constructor.
Qed.

Lemma sort_desc_strongly_sorted (l : list doc) :
  StronglySorted desc (sort_desc tie l).
Proof.
  induction l as [|a l IH]; [constructor|].
  unfold sort_desc in *. simpl. apply insert_desc_sorted, IH.
Qed.

Lemma head_sort_desc_nil (l : list doc) :
  head (sort_desc tie l) = None <-> l = [].
Proof.
  split; [|intros ->; reflexivity].
  pose proof (sort_desc_perm l) as Hp.
  destruct (sort_desc tie l); [|discriminate].
  intros _. now apply Permutation_nil.
Qed.

(** The head of the sorted list is an element that none exceeds. *)
Lemma head_sort_desc_max (l : list doc) (r : doc) :
  head (sort_desc tie l) = Some r ->
  r ∈ l /\ forall x, x ∈ l -> num_leb (timestamp x) (timestamp r) = true.
Proof.
  pose proof (sort_desc_perm l) as Hp.
  pose proof (sort_desc_strongly_sorted l) as Hs.
  destruct (sort_desc tie l) as [|h t]; [discriminate|].
  intros [= ->]. inversion Hs as [|? ? _ Hr]; subst. split.
  - rewrite <- Hp. left.
  - intros x Hx. rewrite <- Hp in Hx.
    apply elem_of_cons in Hx as [->|Hx]; [apply num_leb_refl|].
    rewrite Forall_forall in Hr. apply Hr, Hx.
Qed.

(** A document strictly above all the others is the head, whatever the
    order of ties. *)
Lemma head_sort_desc_strict_max (l1 l2 : list doc) (r : doc) :
  (forall x, x ∈ (l1 ++ l2)%list -> num_lt (timestamp x) (timestamp r)) ->
  head (sort_desc tie (l1 ++ r :: l2)) = Some r.
Proof.
  intros Hlt.
  destruct (head (sort_desc tie (l1 ++ r :: l2))) as [r'|] eqn:Hh.
  - apply head_sort_desc_max in Hh as [Hin Hmax].
    assert (Hr : num_leb (timestamp r) (timestamp r') = true).
    { apply Hmax. rewrite elem_of_app, elem_of_cons. auto. }
    rewrite elem_of_app, elem_of_cons in Hin.
    destruct Hin as [Hin | [-> | Hin]]; [|reflexivity|].
    + rewrite (num_lt_not_leb (timestamp r') (timestamp r)) in Hr;
        [discriminate|]. apply Hlt, elem_of_app. now left.
    + rewrite (num_lt_not_leb (timestamp r') (timestamp r)) in Hr;
        [discriminate|]. apply Hlt, elem_of_app. now right.
  - apply head_sort_desc_nil in Hh. now destruct l1.
Qed.

End LatestQuery.

Section QueryAnswer.

Lemma find_app (d : string) (l1 l2 : list doc) :
  find d (l1 ++ l2) = (find d l1 ++ find d l2)%list.
Proof. unfold find. apply filter_app. Qed.

Lemma elem_of_find (d : string) (coll : list doc) (r : doc) :
  r ∈ find d coll <-> r ∈ coll /\ deviceId r = d.
Proof. unfold find. rewrite list_elem_of_filter. tauto. Qed.

(** The answer of the query meets [is_latest], and there is an answer
    whenever the device has a document. *)
Lemma findOne_latest_is_latest (d : string) (w : World) (r : doc) :
  findOne_latest d w = Return (Some r) -> is_latest d (db w) r.
Proof.
  unfold findOne_latest. destruct (negb (online w)); [discriminate|].
  intros [= H]. apply head_sort_desc_max in H as [Hin Hmax].
  apply elem_of_find in Hin as [Hin Hd].
  repeat split; [exact Hin | exact Hd |].
  intros r' Hr' Hd'. apply Hmax, elem_of_find. now split.
Qed.

End QueryAnswer.

(* ===================================================================== *)
(** * Saving a document *)
(* ===================================================================== *)

Section Saving.

(** No index of the schema is unique, so no write is a duplicate. *)
Lemma duplicate_key_never (r : doc) (coll : list doc) :
  duplicate_key r coll = false.
Proof. reflexivity. Qed.

Lemma validate_ok (i : init) (d : string) :
  i_deviceId i = Some d -> d <> "" ->
  isNaN (i_temperature i) = false -> isNaN (i_timestamp i) = false ->
  validate i = [].
Proof.
  intros Hd Hne Ht Hts. unfold validate, cast_number.
  rewrite Hd, Ht, Hts. destruct d; [congruence | reflexivity].
Qed.

Lemma validate_inv (i : init) :
  validate i = [] ->
  (exists d, i_deviceId i = Some d /\ d <> "") /\
  isNaN (i_temperature i) = false /\ isNaN (i_timestamp i) = false.
Proof.
  unfold validate, cast_number, required_string.
  destruct (isNaN (i_temperature i)); try discriminate.
  destruct (isNaN (i_timestamp i)); try discriminate.
  destruct (i_deviceId i) as [[|c d]|]; try discriminate.
  intros _. split; [|split; reflexivity].
  exists (String c d). split; [reflexivity | discriminate].
Qed.

Lemma save_ok (i : init) (d : string) (now : Z) (w : World) :
  validate i = [] -> i_deviceId i = Some d -> online w = true ->
  save i now w = Return (built i d now w, with_doc (built i d now w) w).
Proof.
  intros Hv Hd Hon. unfold save, insertOne, with_doc, built.
  rewrite Hv, Hd, Hon. reflexivity.
Qed.

Lemma save_inv (i : init) (now : Z) (w w' : World) (r : doc) :
  save i now w = Return (r, w') ->
  exists d, i_deviceId i = Some d /\ validate i = [] /\ online w = true /\
            r = built i d now w /\ w' = with_doc r w.
Proof.
  unfold save, insertOne.
  destruct (validate i) eqn:Hv; [|discriminate].
  destruct (i_deviceId i) as [d|] eqn:Hd; [|discriminate].
  destruct (online w) eqn:Hon; [|discriminate].
  simpl. intros [= <- <-]. exists d.
  unfold with_doc, built. simpl. rewrite Hon. auto.
Qed.

(** A failed [save] is a validation error or a refusal of the
    collection, and the latter only when the connection is down. *)
Lemma save_throw (i : init) (now : Z) (w : World) (e : exn) :
  save i now w = Throw e ->
  (e = ValidationError (validate i) /\
   (validate i <> [] \/ i_deviceId i = None))
  \/ (e = MongoError "not connected" /\ online w = false).
Proof.
  unfold save, insertOne.
  destruct (validate i) as [|m ms] eqn:Hv.
  - destruct (i_deviceId i) as [d|] eqn:Hd.
    + destruct (online w); [discriminate|].
      simpl. intros [= <-]. right. auto.
    + intros [= <-]. left. auto.
  - intros [= <-]. left. split; [reflexivity | left; discriminate].
Qed.

End Saving.

(* ===================================================================== *)
(** * Topics *)
(* ===================================================================== *)

Section Topics.

Lemma split_level (d rest : string) :
  one_level d = true ->
  split "/" (d +:+ String "/" rest) = d :: split "/" rest.
Proof.
  induction d as [|c d IH]; simpl; [reflexivity|].
  intros [Hc Hd]%andb_true_iff. apply negb_true_iff in Hc.
  rewrite Hc, (IH Hd). reflexivity.
Qed.

Lemma split_topic_of (d : string) :
  one_level d = true ->
  split "/" (topic_of d) = ["iot"; "sensor"; d; "temperature"].
Proof.
  intros Hd.
  change (topic_of d)
    with ("iot" +:+ String "/" ("sensor" +:+ String "/"
            (d +:+ String "/" "temperature"))).
  rewrite !split_level by (exact Hd || reflexivity). reflexivity.
Qed.

(** The subscription matches the topic of every device whose
    identifier is one level. *)
Lemma subscription_matches (d : string) :
  one_level d = true -> Mqtt.topic_matches Mqtt.subscription (topic_of d) = true.
Proof.
  intros Hd. unfold Mqtt.topic_matches. rewrite (split_topic_of d Hd).
  reflexivity.
Qed.

End Topics.

(* ===================================================================== *)
(** * The REST intake *)
(* ===================================================================== *)

Section RestIntake.

Lemma zod_deviceId_inl (v : value) (s : string) :
  Zod.deviceId v = inl s <-> v = VString s /\ s <> "".
Proof.
  destruct v; simpl; try (split; [discriminate | intros [[=] _]]).
  destruct s0; simpl; split.
  - discriminate.
  - intros [[= <-] H]. congruence.
  - intros [= <-]. split; [reflexivity | discriminate].
  - intros [[= <-] _]. reflexivity.
Qed.

Lemma zod_temperature_inl (v : value) (n : number) :
  Zod.temperature v = inl n <-> v = VNumber n /\ isNaN n = false.
Proof.
  destruct v; simpl; try (split; [discriminate | intros [[=] _]]).
  destruct (isNaN n0) eqn:E; split.
  - discriminate.
  - intros [[= <-] H]. congruence.
  - intros [= <-]. auto.
  - intros [[= <-] _]. reflexivity.
Qed.

Lemma zod_timestamp_inl (now : Z) (v : value) (n : number) :
  Zod.timestamp now v = inl n <->
  (v = VUndefined /\ n = of_millis now) \/ (v = VNumber n /\ isNaN n = false).
Proof.
  destruct v; simpl;
    try (split; [discriminate | intros [[[=] _]|[[=] _]]]).
  - split; [intros [= <-]; left; auto|].
    intros [[_ ->]|[[=] _]]. reflexivity.
  - destruct (isNaN n0) eqn:E; split.
    + discriminate.
    + intros [[[=] _]|[[= <-] H]]. congruence.
    + intros [= <-]. right. auto.
    + intros [[[=] _]|[[= <-] _]]. reflexivity.
Qed.

(** The schema accepts exactly the valid bodies, and keeps of them the
    three fields. *)
Lemma ingestSchema_parse_ok (now : Z) (body : value) (d : string)
    (v : number) (ot : option number) :
  valid_body body d v ot ->
  Zod.ingestSchema_parse now body =
  Return {| Zod.v_deviceId := d; Zod.v_temperature := v;
            Zod.v_timestamp := stamp now ot |}.
Proof.
  intros [Hd Hne Ht Hn Hts Hst].
  destruct body; simpl in Hd; try discriminate.
  simpl in Ht, Hts. unfold Zod.ingestSchema_parse.
  rewrite Hd, Ht, Hts.
  destruct (proj2 (zod_deviceId_inl (VString d) d)) as []; [auto|].
  destruct (proj2 (zod_temperature_inl (VNumber v) v)) as []; [auto|].
  destruct ot as [t|]; simpl.
  - rewrite Hn, (Hst t eq_refl).
    destruct d; [congruence | reflexivity].
  - rewrite Hn. destruct d; [congruence | reflexivity].
Qed.

Lemma ingestSchema_parse_inv (now : Z) (body : value) (x : Zod.validated) :
  Zod.ingestSchema_parse now body = Return x ->
  exists ot, valid_body body (Zod.v_deviceId x) (Zod.v_temperature x) ot /\
             Zod.v_timestamp x = stamp now ot.
Proof.
  unfold Zod.ingestSchema_parse.
  destruct body as [| | | | | |m]; try discriminate.
  destruct (Zod.deviceId _) as [d|] eqn:Hd;
    destruct (Zod.temperature _) as [t|] eqn:Ht;
    destruct (Zod.timestamp _ _) as [ts|] eqn:Hts; try discriminate.
  intros [= <-]. simpl.
  apply zod_deviceId_inl in Hd as [Hd Hne].
  apply zod_temperature_inl in Ht as [Ht Hn].
  apply zod_timestamp_inl in Hts as [[Hts ->]|[Hts Hnn]].
  - exists None. split; [|reflexivity].
    constructor; simpl; auto. discriminate.
  - exists (Some ts). split; [|reflexivity].
    constructor; simpl; auto. intros ? [= <-]. exact Hnn.
Qed.

(** What the schema refuses is answered with 400 and nothing is
    written. *)
Lemma ingestSchema_parse_throw (now : Z) (body : value) (e : exn) :
  Zod.ingestSchema_parse now body = Throw e -> exists errors, e = ZodError errors.
Proof.
  unfold Zod.ingestSchema_parse.
  destruct body as [| | | | | |m]; try (intros [= <-]; eauto).
  destruct (Zod.deviceId _), (Zod.temperature _), (Zod.timestamp _ _);
    try discriminate; intros [= <-]; eauto.
Qed.

(** A body that is no object is refused as a whole. *)
Lemma ingestSchema_parse_not_object (now : Z) (body : value) :
  (forall m, body <> VObject m) ->
  Zod.ingestSchema_parse now body =
  Throw (ZodError [Zod.invalid_type "object" body]).
Proof. destruct body; try reflexivity. intros H. now destruct (H m). Qed.

Lemma ingestReading_refused (now_ts now_created : Z) (body : value)
    (w : World) (errors : list string) :
  Zod.ingestSchema_parse now_ts body = Throw (ZodError errors) ->
  ingestReading now_ts now_created body w =
  (w, Responded {| status := 400; json := Failure (join errors) |}).
Proof. intros H. unfold ingestReading. rewrite H. reflexivity. Qed.

Lemma stamp_not_NaN (now : Z) (ot : option number) :
  (forall t, ot = Some t -> isNaN t = false) -> isNaN (stamp now ot) = false.
Proof. destruct ot as [t|]; simpl; auto. Qed.

Lemma ingestReading_ok (now_ts now_created : Z) (body : value)
    (d : string) (v : number) (ot : option number) (w : World) :
  valid_body body d v ot -> online w = true ->
  let r := ingested now_ts now_created d v ot w in
  ingestReading now_ts now_created body w =
  (with_doc r w, Responded {| status := 201; json := Success r |}).
Proof.
  intros Hb Hon r. unfold ingestReading.
  rewrite (ingestSchema_parse_ok now_ts body d v ot Hb). simpl.
  erewrite save_ok; [reflexivity | | reflexivity | exact Hon].
  destruct Hb. eapply validate_ok; simpl; eauto using stamp_not_NaN.
Qed.

(** Conversely, a 201 is only ever the answer to a valid body on a
    connected store. *)
Lemma ingestReading_201_inv (now_ts now_created : Z) (body : value)
    (w w' : World) (r : doc) :
  ingestReading now_ts now_created body w =
    (w', Responded {| status := 201; json := Success r |}) ->
  exists ot, valid_body body (deviceId r) (temperature r) ot /\
             online w = true /\
             r = ingested now_ts now_created (deviceId r) (temperature r) ot w /\
             w' = with_doc r w.
Proof.
  unfold ingestReading.
  destruct (Zod.ingestSchema_parse now_ts body) as [x|e] eqn:Hp; simpl.
  - destruct (save _ now_created w) as [[r' w'']|e] eqn:Hs.
    + intros [= <- <-].
      apply save_inv in Hs as (d & Hd & Hv & Hon & -> & ->).
      simpl in Hd. injection Hd as <-.
      apply ingestSchema_parse_inv in Hp as (ot & Hb & Hts).
      exists ot. simpl.
      split; [exact Hb|]. split; [exact Hon|]. split; [|reflexivity].
      unfold built, ingested. simpl. now rewrite Hts.
    + destruct e; simpl; intros [=].
  - destruct e; simpl; intros [=].
Qed.

End RestIntake.

(* ===================================================================== *)
(** * The bus intake *)
(* ===================================================================== *)

Section BusIntake.

Lemma onMessage_ok (now_ts now_created : Z) (topic d : string)
    (data t : value) (w : World) :
  split "/" topic !! 2%nat = Some d -> d <> "" ->
  getProp data "temperature" = Some t ->
  isNaN (parseFloat t) = false -> online w = true ->
  let r := received now_ts now_created d t w in
  Mqtt.onMessage now_ts now_created topic (Some data) w =
  (with_doc r w, Mqtt.Saved (Some d) t).
Proof.
  intros Hd Hne Ht Hn Hon r. unfold Mqtt.onMessage.
  rewrite Hd. simpl. rewrite Ht. simpl.
  erewrite save_ok; [reflexivity | | reflexivity | exact Hon].
  eapply validate_ok; simpl; eauto.
Qed.

(** A message is saved only if its topic has a non-empty third level,
    its payload is JSON from which [temperature] can be read, and
    [parseFloat] makes a number of what was read. *)
Lemma onMessage_saved_inv (now_ts now_created : Z) (topic : string)
    (parsed : option value) (w w' : World) (od : option string) (t : value) :
  Mqtt.onMessage now_ts now_created topic parsed w = (w', Mqtt.Saved od t) ->
  exists d data,
    od = Some d /\ split "/" topic !! 2%nat = Some d /\ d <> "" /\
    parsed = Some data /\ getProp data "temperature" = Some t /\
    isNaN (parseFloat t) = false /\ online w = true /\
    w' = with_doc (received now_ts now_created d t w) w.
Proof.
  unfold Mqtt.onMessage.
  destruct parsed as [data|]; simpl; [|discriminate].
  destruct (getProp data "temperature") as [t'|] eqn:Ht; simpl;
    [|discriminate].
  destruct (save _ now_created w) as [[r w'']|e] eqn:Hs; simpl;
    [|discriminate].
  intros [= <- <- <-].
  apply save_inv in Hs as (d & Hd & Hv & Hon & -> & ->). simpl in Hd.
  apply validate_inv in Hv as ((d' & Hd' & Hne) & Hn & _). simpl in *.
  rewrite Hd in Hd'. injection Hd' as <-.
  exists d, data. rewrite Hd. repeat split; auto.
Qed.

(** Whatever goes wrong, the handler logs it and leaves the store as it
    was. *)
Lemma onMessage_failed (now_ts now_created : Z) (topic : string)
    (parsed : option value) (w w' : World) (e : exn) (tp : string) :
  Mqtt.onMessage now_ts now_created topic parsed w = (w', Mqtt.Failed e tp) ->
  w' = w /\ tp = topic.
Proof.
  unfold Mqtt.onMessage.
  destruct parsed as [data|]; simpl; [|intros [= <- _ <-]; auto].
  destruct (getProp data "temperature") as [t'|]; simpl;
    [|intros [= <- _ <-]; auto].
  destruct (save _ now_created w) as [[r w'']|e']; simpl;
    [discriminate | intros [= <- _ <-]; auto].
Qed.

Lemma publish_subscribed (now_ts now_created : Z) (d : string)
    (parsed : option value) (w : World) :
  one_level d = true ->
  Mqtt.publish (Some "true") now_ts now_created (topic_of d) parsed w =
  (let '(w', l) := Mqtt.onMessage now_ts now_created (topic_of d) parsed w in
   (w', Some l)).
Proof.
  intros Hd. unfold Mqtt.publish.
  change (Mqtt.subscriptions (Some "true")) with [Mqtt.subscription].
  simpl existsb. rewrite (subscription_matches d Hd). reflexivity.
Qed.

Lemma topic_of_deviceId (d : string) :
  one_level d = true -> split "/" (topic_of d) !! 2%nat = Some d.
Proof. intros Hd. rewrite (split_topic_of d Hd). reflexivity. Qed.

End BusIntake.

(* ===================================================================== *)
(** * Retrieval *)
(* ===================================================================== *)

Section Retrieval.

Lemma getLatestReading_none (d : string) (w : World) :
  find d (db w) = [] -> online w = true ->
  getLatestReading d w =
  Responded {| status := 404;
               json := Failure "No readings found for this device" |}.
Proof.
  intros Hf Hon. unfold getLatestReading, findOne_latest.
  rewrite Hon, Hf. reflexivity.
Qed.

(** A document of the device stamped strictly above its other documents
    is the answer, whatever the database does with ties. *)
Lemma getLatestReading_strict_max (d : string) (w : World)
    (l1 l2 : list doc) (r : doc) :
  online w = true ->
  find d (db w) = (l1 ++ r :: l2)%list ->
  (forall x, x ∈ (l1 ++ l2)%list -> num_lt (timestamp x) (timestamp r)) ->
  getLatestReading d w = Responded {| status := 200; json := Success r |}.
Proof.
  intros Hon Hf Hlt. unfold getLatestReading, findOne_latest.
  rewrite Hon, Hf. simpl negb. cbv iota.
  rewrite (head_sort_desc_strict_max (ties w) l1 l2 r Hlt). reflexivity.
Qed.

(** A 200 carries a document that meets the query. *)
Lemma getLatestReading_200 (d : string) (w : World) (r : doc) :
  getLatestReading d w = Responded {| status := 200; json := Success r |} ->
  is_latest d (db w) r.
Proof.
  unfold getLatestReading.
  destruct (findOne_latest d w) as [[r'|]|e] eqn:H; try discriminate.
  intros [= <-]. apply findOne_latest_is_latest, H.
Qed.

(** The documents of a device after one more of its own. *)
Lemma find_with_doc (d : string) (r : doc) (w : World) :
  deviceId r = d ->
  find d (db (with_doc r w)) = (find d (db w) ++ [r])%list.
Proof.
  intros Hd. simpl. rewrite find_app. f_equal.
  unfold find. rewrite filter_cons_True by exact Hd. reflexivity.
Qed.

(** A document stamped above all the stored ones of its device is the
    latest once it is written. *)
Lemma latest_after_newer (d : string) (r : doc) (w : World) :
  online w = true -> deviceId r = d ->
  (forall x, x ∈ db w -> deviceId x = d ->
             num_lt (timestamp x) (timestamp r)) ->
  getLatestReading d (with_doc r w) =
  Responded {| status := 200; json := Success r |}.
Proof.
  intros Hon Hd Hnew.
  apply (getLatestReading_strict_max d (with_doc r w) (find d (db w)) [] r).
  - exact Hon.
  - apply find_with_doc, Hd.
  - rewrite app_nil_r. intros x [Hx Hxd]%elem_of_find. now apply Hnew.
Qed.

End Retrieval.

(* ===================================================================== *)
(** * Invariants of the store *)
(* ===================================================================== *)

Section Invariants.

Lemma wf_empty_world : wf empty_world.
Proof. constructor. Qed.

Lemma wf_with_doc (r : doc) (w : World) :
  wf w -> _id r = nextId w -> wf (with_doc r w).
Proof.
  unfold wf. intros Hwf Hid. simpl. apply Forall_app. split.
  - eapply Forall_impl; [exact Hwf|]. simpl. intros x Hx. lia.
  - constructor; [lia | constructor].
Qed.

Lemma wf_save (i : init) (now : Z) (w w' : World) (r : doc) :
  wf w -> save i now w = Return (r, w') -> wf w'.
Proof.
  intros Hwf (d & _ & _ & _ & -> & ->)%save_inv.
  now apply wf_with_doc.
Qed.

(** The handlers only ever append: what was stored stays, unchanged and
    in place. *)
Lemma ingestReading_appends (now_ts now_created : Z) (body : value)
    (w : World) :
  let w' := fst (ingestReading now_ts now_created body w) in
  (w' = w \/ exists r, w' = with_doc r w /\ _id r = nextId w).
Proof.
  unfold ingestReading.
  destruct (Zod.ingestSchema_parse now_ts body) as [x|e]; simpl; auto.
  destruct (save _ now_created w) as [[r w'']|e] eqn:Hs; simpl; auto.
  apply save_inv in Hs as (d & _ & _ & _ & -> & ->). right. eauto.
Qed.

Lemma onMessage_appends (now_ts now_created : Z) (topic : string)
    (parsed : option value) (w : World) :
  let w' := fst (Mqtt.onMessage now_ts now_created topic parsed w) in
  (w' = w \/ exists r, w' = with_doc r w /\ _id r = nextId w).
Proof.
  unfold Mqtt.onMessage.
  destruct parsed as [data|]; simpl; auto.
  destruct (getProp data "temperature") as [t|]; simpl; auto.
  destruct (save _ now_created w) as [[r w'']|e] eqn:Hs; simpl; auto.
  apply save_inv in Hs as (d & _ & _ & _ & -> & ->). right. eauto.
Qed.

Lemma wf_ingestReading (now_ts now_created : Z) (body : value) (w : World) :
  wf w -> wf (fst (ingestReading now_ts now_created body w)).
Proof.
  intros Hwf.
  destruct (ingestReading_appends now_ts now_created body w)
    as [-> | (r & -> & Hid)]; [exact Hwf | now apply wf_with_doc].
Qed.

Lemma wf_onMessage (now_ts now_created : Z) (topic : string)
    (parsed : option value) (w : World) :
  wf w -> wf (fst (Mqtt.onMessage now_ts now_created topic parsed w)).
Proof.
  intros Hwf.
  destruct (onMessage_appends now_ts now_created topic parsed w)
    as [-> | (r & -> & Hid)]; [exact Hwf | now apply wf_with_doc].
Qed.

End Invariants.

(* ===================================================================== *)
(** * Properties of the intake and retrieval paths *)
(* ===================================================================== *)

(** C2 — A message published on the topic of a device, with a body whose
    [temperature] is a number, reaches the subscriber, and the store
    gains exactly one document: its [deviceId] is the topic's third
    level and its [temperature] is the body's.  (The device identifier
    is non-empty and one topic level; the subscriber is enabled and the
    store connected.) *)
Theorem bus_message_stored (now_ts now_created : Z) (d : string)
    (v : number) (m : gmap string value) (w : World) :
  d <> "" -> one_level d = true ->
  m !! "temperature" = Some (VNumber v) -> isNaN v = false ->
  online w = true ->
  exists r,
    Mqtt.publish (Some "true") now_ts now_created (topic_of d)
                 (Some (VObject m)) w
      = (with_doc r w, Some (Mqtt.Saved (Some d) (VNumber v)))
    /\ db (with_doc r w) = (db w ++ [r])%list
    /\ deviceId r = d /\ temperature r = v.
Proof.
  intros Hne Hd Hm Hv Hon.
  exists (received now_ts now_created d (VNumber v) w).
  rewrite (publish_subscribed _ _ d _ w Hd).
  rewrite (onMessage_ok now_ts now_created (topic_of d) d (VObject m)
             (VNumber v) w); auto using topic_of_deviceId.
  simpl. now rewrite Hm.
Qed.

Lemma bus_message_stored_s2 :
  exists r,
    Mqtt.publish (Some "true") 1700000000000 1700000000001
                 "iot/sensor/s2/temperature"
                 (Some (VObject {[ "temperature" := VNumber (Fin 19.1) ]}))
                 empty_world
      = (with_doc r empty_world,
         Some (Mqtt.Saved (Some "s2") (VNumber (Fin 19.1))))
    /\ db (with_doc r empty_world) = [r]
    /\ deviceId r = "s2" /\ temperature r = Fin 19.1.
Proof.
  apply (bus_message_stored 1700000000000 1700000000001 "s2" (Fin 19.1)
           {[ "temperature" := VNumber (Fin 19.1) ]} empty_world).
  - discriminate.
  - reflexivity.
  - reflexivity.
  - reflexivity.
  - reflexivity.
Defined.

(** C6 — When a device has two stored readings with timestamps
    [t1 < t2], in whichever order they were written and whatever other
    devices wrote in between, the latest reading of the device is the one
    with [t2]. *)
Theorem latest_is_greater_timestamp (d : string) (w : World) (r1 r2 : doc) :
  online w = true ->
  Permutation (find d (db w)) [r1; r2] ->
  num_lt (timestamp r1) (timestamp r2) ->
  getLatestReading d w = Responded {| status := 200; json := Success r2 |}.
Proof.
  intros Hon Hp Hlt.
  apply Permutation_sym, Permutation_length_2_inv in Hp as [Hf|Hf].
  - apply (getLatestReading_strict_max d w [r1] [] r2 Hon Hf).
    intros x ->%list_elem_of_singleton. exact Hlt.
  - apply (getLatestReading_strict_max d w [] [r1] r2 Hon Hf).
    intros x ->%list_elem_of_singleton. exact Hlt.
Qed.

Lemma latest_is_greater_timestamp_out_of_order :
  getLatestReading "s1" out_of_order =
  Responded {| status := 200;
               json := Success {| _id := 0; deviceId := "s1";
                                  temperature := Fin 21;
                                  timestamp := Fin 2000;
                                  createdAt := 9001 |} |}.
Proof.
  apply (latest_is_greater_timestamp "s1" out_of_order
           {| _id := 2; deviceId := "s1"; temperature := Fin 20;
              timestamp := Fin 1000; createdAt := 9003 |}).
  - reflexivity.
  - vm_compute. apply perm_swap.
  - reflexivity.
Defined.

(** C7 — For a device without stored readings the retrieval answers 404,
    and the error text is the same for every device: it does not contain
    the identifier that was asked for. *)
Theorem latest_unknown_device :
  getLatestReading "unknown" empty_world =
    Responded {| status := 404;
                 json := Failure "No readings found for this device" |}
  /\ contains "unknown" "No readings found for this device" = false.
Proof. split; reflexivity. Qed.



(** C9 — A write is never refused because a stored reading has the same
    device and timestamp: the schema declares no unique index.  Saving a
    second valid reading with the pair of a stored one succeeds, the
    store holds both, and the new document has an [_id] of its own. *)
Theorem duplicate_pair_stored (i : init) (now : Z) (w : World) (r0 : doc) :
  wf w -> online w = true -> r0 ∈ db w ->
  validate i = [] ->
  i_deviceId i = Some (deviceId r0) -> i_timestamp i = timestamp r0 ->
  exists r,
    save i now w = Return (r, with_doc r w)
    /\ db (with_doc r w) = (db w ++ [r])%list
    /\ deviceId r = deviceId r0 /\ timestamp r = timestamp r0
    /\ _id r <> _id r0.
Proof.
  intros Hwf Hon Hin Hv Hd Hts.
  exists (built i (deviceId r0) now w).
  rewrite (save_ok i (deviceId r0) now w Hv Hd Hon).
  repeat split; [exact Hts|]. simpl.
  unfold wf in Hwf. rewrite Forall_forall in Hwf.
  specialize (Hwf r0 Hin). lia.
Qed.

Lemma duplicate_pair_stored_resend :
  exists r,
    save {| i_deviceId := Some "s1"; i_temperature := Fin 21;
            i_timestamp := Fin 2000 |} 9100 one_reading
      = Return (r, with_doc r one_reading)
    /\ db (with_doc r one_reading) = (db one_reading ++ [r])%list
    /\ deviceId r = "s1" /\ timestamp r = Fin 2000
    /\ _id r <> 0%nat.
Proof.
  apply (duplicate_pair_stored
           {| i_deviceId := Some "s1"; i_temperature := Fin 21;
              i_timestamp := Fin 2000 |} 9100 one_reading
           {| _id := 0; deviceId := "s1"; temperature := Fin 21;
              timestamp := Fin 2000; createdAt := 9001 |}).
  - vm_compute. repeat constructor.
  - reflexivity.
  - vm_compute. left.
  - reflexivity.
  - reflexivity.
  - reflexivity.
Defined.

(** C10 — Keys of the request body other than [deviceId], [temperature]
    and [timestamp] change nothing: the answer and the store are those of
    the same request without them.  With the required fields present the
    request succeeds, and the document stored is made of the three
    fields, the [_id] and the [createdAt] alone: the other keys are
    neither stored nor reported. *)
Theorem unknown_fields_discarded (now_ts now_created : Z)
    (m extra : gmap string value) (d : string) (v : number)
    (ot : option number) (w : World) :
  extra !! "deviceId" = None -> extra !! "temperature" = None ->
  extra !! "timestamp" = None ->
  valid_body (VObject m) d v ot -> online w = true ->
  ingestReading now_ts now_created (VObject (extra ∪ m)) w =
    ingestReading now_ts now_created (VObject m) w
  /\ ingestReading now_ts now_created (VObject (extra ∪ m)) w =
     (with_doc (ingested now_ts now_created d v ot w) w,
      Responded {| status := 201;
                   json := Success (ingested now_ts now_created d v ot w) |}).
Proof.
  intros Hd Ht Hts Hb Hon.
  assert (Heq : ingestReading now_ts now_created (VObject (extra ∪ m)) w =
                ingestReading now_ts now_created (VObject m) w).
  { unfold ingestReading, Zod.ingestSchema_parse.
    rewrite !lookup_union_r by assumption. reflexivity. }
  split; [exact Heq|]. rewrite Heq. now apply ingestReading_ok.
Qed.

Lemma unknown_fields_discarded_example :
  ingestReading 1000 1001
    (VObject ({[ "unit" := VString "C"; "battery" := VNumber (Fin 0.8) ]}
              ∪ {[ "deviceId" := VString "s1";
                   "temperature" := VNumber (Fin 23.5) ]})) empty_world
  = ingestReading 1000 1001
      (VObject {[ "deviceId" := VString "s1";
                  "temperature" := VNumber (Fin 23.5) ]}) empty_world
  /\ ingestReading 1000 1001
    (VObject ({[ "unit" := VString "C"; "battery" := VNumber (Fin 0.8) ]}
              ∪ {[ "deviceId" := VString "s1";
                   "temperature" := VNumber (Fin 23.5) ]})) empty_world
     = (with_doc (ingested 1000 1001 "s1" (Fin 23.5) None empty_world)
                 empty_world,
        Responded {| status := 201;
                     json := Success (ingested 1000 1001 "s1" (Fin 23.5) None
                                               empty_world) |}).
Proof.
  apply (unknown_fields_discarded 1000 1001
           {[ "deviceId" := VString "s1";
              "temperature" := VNumber (Fin 23.5) ]}
           {[ "unit" := VString "C"; "battery" := VNumber (Fin 0.8) ]}
           "s1" (Fin 23.5) None empty_world); try reflexivity.
  constructor; try reflexivity; discriminate.
Defined.

(** C3, as stated, fails: the query gives [createdAt] no part.  In a
    store that hands out equal keys in written order, of two readings of
    [s1] with the same timestamp the one returned is the one with the
    smaller [createdAt]; it meets the query as well as the other. *)
Lemma latest_tie_not_by_createdAt :
  let r1 := {| _id := 0; deviceId := "s1"; temperature := Fin 20;
               timestamp := Fin 5000; createdAt := 1000 |} in
  let r2 := {| _id := 1; deviceId := "s1"; temperature := Fin 21;
               timestamp := Fin 5000; createdAt := 2000 |} in
  db tied = [r1; r2]
  /\ timestamp r1 = timestamp r2
  /\ (createdAt r1 < createdAt r2)%Z
  /\ ties tied r1 r2 = true
  /\ is_latest "s1" (db tied) r1
  /\ getLatestReading "s1" tied =
     Responded {| status := 200; json := Success r1 |}.
Proof.
  repeat split.
  - left.
  - intros r' Hr' _. change (db tied) with
      [ {| _id := 0; deviceId := "s1"; temperature := Fin 20;
           timestamp := Fin 5000; createdAt := 1000 |};
        {| _id := 1; deviceId := "s1"; temperature := Fin 21;
           timestamp := Fin 5000; createdAt := 2000 |} ] in Hr'.
    apply elem_of_cons in Hr' as [-> | Hr']; [reflexivity|].
    apply list_elem_of_singleton in Hr' as ->. reflexivity.
Qed.

(** The same two readings in a store that hands out equal keys last
    written first: there the other one is returned. *)
Lemma latest_tie_newest_first :
  getLatestReading "s1" (newest_first tied) =
  Responded {| status := 200;
               json := Success {| _id := 1; deviceId := "s1";
                                  temperature := Fin 21;
                                  timestamp := Fin 5000;
                                  createdAt := 2000 |} |}.
Proof. reflexivity. Qed.

(** C3, amended — When a device has two stored readings with the same
    timestamp, the latest reading is one of the two.  The query sorts on
    [timestamp] alone, so which of them it is follows the order in which
    the database hands out equal keys; the code gives [createdAt] no
    part in it. *)
Theorem latest_tie_store_order (d : string) (w : World) (r1 r2 : doc) :
  online w = true ->
  find d (db w) = [r1; r2] ->
  num_same (timestamp r1) (timestamp r2) ->
  getLatestReading d w =
  Responded {| status := 200;
               json := Success (if ties w r1 r2 then r1 else r2) |}.
Proof.
  intros Hon Hf [H12 H21].
  unfold getLatestReading, findOne_latest. rewrite Hon, Hf.
  change (sort_desc (ties w) [r1; r2]) with (insert_desc (ties w) r1 [r2]).
  cbn [insert_desc]. unfold num_ltb. rewrite H12, H21. cbn [negb].
  destruct (ties w r1 r2); reflexivity.
Qed.

Lemma latest_tie_store_order_tied :
  getLatestReading "s1" tied =
  Responded {| status := 200;
               json := Success {| _id := 0; deviceId := "s1";
                                  temperature := Fin 20;
                                  timestamp := Fin 5000;
                                  createdAt := 1000 |} |}.
Proof.
  apply (latest_tie_store_order "s1" tied
           {| _id := 0; deviceId := "s1"; temperature := Fin 20;
              timestamp := Fin 5000; createdAt := 1000 |}
           {| _id := 1; deviceId := "s1"; temperature := Fin 21;
              timestamp := Fin 5000; createdAt := 2000 |}).
  - reflexivity.
  - reflexivity.
  - split; reflexivity.
Defined.

(** C4, as stated, fails twice.  A valid reading stamped below a stored
    one of its device is stored, yet the latest reading stays the stored
    one; and a message on the bus that carries a timestamp is stored
    with the time of the server. *)
Lemma ingest_not_always_latest :
  let old := {| _id := 0; deviceId := "s1"; temperature := Fin 21;
                timestamp := Fin 2000; createdAt := 9001 |} in
  let new := {| _id := 1; deviceId := "s1"; temperature := Fin 20;
                timestamp := Fin 1000; createdAt := 9003 |} in
  db one_reading = [old]
  /\ ingestReading 0 9003 (stamped "s1" 20 1000) one_reading =
     (with_doc new one_reading,
      Responded {| status := 201; json := Success new |})
  /\ getLatestReading "s1" (with_doc new one_reading) =
     Responded {| status := 200; json := Success old |}
  /\ db (fst (Mqtt.onMessage 7777 7778 "iot/sensor/s2/temperature"
                (Some (VObject {[ "temperature" := VNumber (Fin 19.1);
                                  "timestamp" := VNumber (Fin 5) ]}))
                empty_world)) =
     [ {| _id := 0; deviceId := "s2"; temperature := Fin 19.1;
          timestamp := Fin 7777; createdAt := 7778 |} ].
Proof. repeat split. Qed.

(** The stored reading stays the latest whatever the database does with
    ties: the two timestamps differ. *)
Lemma ingest_not_always_latest_any_order :
  getLatestReading "s1"
    (newest_first (fst (ingestReading 0 9003 (stamped "s1" 20 1000)
                          one_reading))) =
  Responded {| status := 200;
               json := Success {| _id := 0; deviceId := "s1";
                                  temperature := Fin 21;
                                  timestamp := Fin 2000;
                                  createdAt := 9001 |} |}.
Proof. reflexivity. Qed.

(** C4, amended — A valid body on the REST path is stored with its own
    [deviceId], [temperature] and [timestamp], the server's clock
    standing in for the timestamp only when the body has none; a message
    on the bus is stored with the device of its topic and the value of
    its body.  On either path the reading just stored is the latest of
    its device when its timestamp is above those of the readings the
    device already had. *)
Theorem ingest_stored_and_latest (now_ts now_created : Z) (body : value)
    (d : string) (v : number) (ot : option number) (w : World) :
  valid_body body d v ot -> online w = true ->
  let r := ingested now_ts now_created d v ot w in
  (ingestReading now_ts now_created body w =
     (with_doc r w, Responded {| status := 201; json := Success r |})
   /\ deviceId r = d /\ temperature r = v
   /\ timestamp r = default (of_millis now_ts) ot
   /\ ((forall x, x ∈ db w -> deviceId x = d ->
                  num_lt (timestamp x) (timestamp r)) ->
       getLatestReading d (with_doc r w) =
       Responded {| status := 200; json := Success r |}))
  /\
  (forall data : value,
     one_level d = true -> field data "temperature" = VNumber v ->
     let r' := received now_ts now_created d (VNumber v) w in
     Mqtt.publish (Some "true") now_ts now_created (topic_of d) (Some data) w =
       (with_doc r' w, Some (Mqtt.Saved (Some d) (VNumber v)))
     /\ deviceId r' = d /\ temperature r' = v
     /\ ((forall x, x ∈ db w -> deviceId x = d ->
                    num_lt (timestamp x) (timestamp r')) ->
         getLatestReading d (with_doc r' w) =
         Responded {| status := 200; json := Success r' |})).
Proof.
  intros Hb Hon r. split.
  - split; [apply ingestReading_ok; assumption|].
    repeat split. intros Hnew. now apply latest_after_newer.
  - intros data Hd Hv r'.
    assert (Hg : getProp data "temperature" = Some (VNumber v)).
    { destruct data; simpl in Hv; try discriminate. simpl. now rewrite Hv. }
    rewrite (publish_subscribed _ _ d _ w Hd).
    rewrite (onMessage_ok now_ts now_created (topic_of d) d data
               (VNumber v) w); auto using topic_of_deviceId.
    + repeat split. intros Hnew. now apply latest_after_newer.
    + apply Hb.
    + apply Hb.
Qed.

Lemma ingest_stored_and_latest_s1 :
  let body := VObject {[ "deviceId" := VString "s1";
                         "temperature" := VNumber (Fin 23.5) ]} in
  let r := ingested 1000 1001 "s1" (Fin 23.5) None empty_world in
  (ingestReading 1000 1001 body empty_world =
     (with_doc r empty_world,
      Responded {| status := 201; json := Success r |})
   /\ deviceId r = "s1" /\ temperature r = Fin 23.5
   /\ timestamp r = default (of_millis 1000) None
   /\ ((forall x, x ∈ db empty_world -> deviceId x = "s1" ->
                  num_lt (timestamp x) (timestamp r)) ->
       getLatestReading "s1" (with_doc r empty_world) =
       Responded {| status := 200; json := Success r |}))
  /\
  (forall data : value,
     one_level "s1" = true -> field data "temperature" = VNumber (Fin 23.5) ->
     let r' := received 1000 1001 "s1" (VNumber (Fin 23.5)) empty_world in
     Mqtt.publish (Some "true") 1000 1001 (topic_of "s1") (Some data)
                  empty_world =
       (with_doc r' empty_world,
        Some (Mqtt.Saved (Some "s1") (VNumber (Fin 23.5))))
     /\ deviceId r' = "s1" /\ temperature r' = Fin 23.5
     /\ ((forall x, x ∈ db empty_world -> deviceId x = "s1" ->
                    num_lt (timestamp x) (timestamp r')) ->
         getLatestReading "s1" (with_doc r' empty_world) =
         Responded {| status := 200; json := Success r' |})).
Proof.
  apply (ingest_stored_and_latest 1000 1001
           (VObject {[ "deviceId" := VString "s1";
                       "temperature" := VNumber (Fin 23.5) ]})
           "s1" (Fin 23.5) None empty_world).
  - constructor; try reflexivity; discriminate.
  - reflexivity.
Defined.

(** A device identifier with a [/] in it is as good as any on the REST
    path: the reading is stored with it and found under it. *)
Lemma ingest_slash_device :
  let r := {| _id := 0; deviceId := "a/b"; temperature := Fin 23.5;
              timestamp := Fin 5; createdAt := 1001 |} in
  ingestReading 1000 1001 (stamped "a/b" 23.5 5) empty_world =
    (with_doc r empty_world,
     Responded {| status := 201; json := Success r |})
  /\ getLatestReading "a/b" (with_doc r empty_world) =
     Responded {| status := 200; json := Success r |}.
Proof. split; reflexivity. Qed.




(** C1, as stated, fails: the two paths do not validate alike.  The same
    reading, a [temperature] given as text, is refused on the REST path
    and stored on the bus path (with the double nearest to 19.1, which
    is 2688086027586765 / 2^47); and a reading that carries a timestamp
    keeps it on the REST path only. *)
Lemma intake_paths_disagree :
  ingestReading 1000 1001
    (VObject {[ "deviceId" := VString "s2";
                "temperature" := VString "19.1" ]}) empty_world =
    (empty_world,
     Responded {| status := 400;
                  json := Failure "temperature must be a number" |})
  /\ db (fst (Mqtt.publish (Some "true") 1000 1001 "iot/sensor/s2/temperature"
                (Some (VObject {[ "temperature" := VString "19.1" ]}))
                empty_world)) =
     [ {| _id := 0; deviceId := "s2";
          temperature := Fin (2688086027586765 # 140737488355328);
          timestamp := Fin 1000; createdAt := 1001 |} ]
  /\ db (fst (ingestReading 1000 1001 (stamped "s2" 19.1 5) empty_world)) =
     [ {| _id := 0; deviceId := "s2"; temperature := Fin 19.1;
          timestamp := Fin 5; createdAt := 1001 |} ]
  /\ db (fst (Mqtt.publish (Some "true") 1000 1001 "iot/sensor/s2/temperature"
                (Some (VObject {[ "temperature" := VNumber (Fin 19.1);
                                  "timestamp" := VNumber (Fin 5) ]}))
                empty_world)) =
     [ {| _id := 0; deviceId := "s2"; temperature := Fin 19.1;
          timestamp := Fin 1000; createdAt := 1001 |} ].
Proof. repeat split. Qed.

(** C1, amended — The two paths write through the same step of the
    model ([save]: validation by the schema of the model, then the
    insert), but each checks its input in its own way before it: the
    REST path with the request schema, the bus path with [parseFloat].
    A reading the REST path accepts is accepted on the bus path as well,
    when published on the topic of its device with the same
    [temperature], and is stored with the same [deviceId] and
    [temperature]. *)
Theorem rest_accepted_bus_accepted (now_ts now_created now_bus : Z)
    (body data : value) (w w' : World) (r : doc) :
  ingestReading now_ts now_created body w =
    (w', Responded {| status := 201; json := Success r |}) ->
  one_level (deviceId r) = true ->
  field data "temperature" = field body "temperature" ->
  exists r',
    Mqtt.publish (Some "true") now_bus now_created (topic_of (deviceId r))
                 (Some data) w
      = (with_doc r' w,
         Some (Mqtt.Saved (Some (deviceId r)) (VNumber (temperature r))))
    /\ deviceId r' = deviceId r /\ temperature r' = temperature r
    /\ (exists i, save i now_created w = Return (r, w'))
    /\ (exists i', save i' now_created w = Return (r', with_doc r' w)).
Proof.
  intros H Hd Hf.
  apply ingestReading_201_inv in H as (ot & Hb & Hon & Hr & ->).
  pose proof (vb_temperature _ _ _ _ Hb) as Ht. rewrite <- Hf in Ht.
  assert (Hg : getProp data "temperature" = Some (VNumber (temperature r))).
  { destruct data; simpl in Ht; try discriminate. simpl. now rewrite Ht. }
  pose proof (vb_nonempty _ _ _ _ Hb) as Hne.
  pose proof (vb_number _ _ _ _ Hb) as Hn.
  exists (received now_bus now_created (deviceId r)
            (VNumber (temperature r)) w).
  rewrite (publish_subscribed _ _ _ _ w Hd).
  rewrite (onMessage_ok now_bus now_created (topic_of (deviceId r))
             (deviceId r) data (VNumber (temperature r)) w);
    auto using topic_of_deviceId.
  repeat split.
  - exists {| i_deviceId := Some (deviceId r);
              i_temperature := temperature r;
              i_timestamp := stamp now_ts ot |}.
    rewrite (save_ok _ (deviceId r) now_created w);
      [| | reflexivity | exact Hon].
    + assert (Hbr : built {| i_deviceId := Some (deviceId r);
                                i_temperature := temperature r;
                                i_timestamp := stamp now_ts ot |}
                             (deviceId r) now_created w = r)
        by (etransitivity; [|symmetry; exact Hr]; reflexivity).
      rewrite Hbr. reflexivity.
    + eapply validate_ok; simpl; eauto.
      apply stamp_not_NaN, Hb.
  - exists {| i_deviceId := Some (deviceId r);
              i_temperature := temperature r;
              i_timestamp := of_millis now_bus |}.
    rewrite (save_ok _ (deviceId r) now_created w);
      [reflexivity | | reflexivity | exact Hon].
    eapply validate_ok; simpl; eauto.
Qed.

Lemma rest_accepted_bus_accepted_s2 :
  exists r',
    Mqtt.publish (Some "true") 1500 1001 (topic_of "s2")
      (Some (VObject {[ "temperature" := VNumber (Fin 19.1) ]})) empty_world
      = (with_doc r' empty_world,
         Some (Mqtt.Saved (Some "s2") (VNumber (Fin 19.1))))
    /\ deviceId r' = "s2" /\ temperature r' = Fin 19.1
    /\ (exists i, save i 1001 empty_world =
                  Return (ingested 1000 1001 "s2" (Fin 19.1) (Some (Fin 5))
                                   empty_world,
                          with_doc (ingested 1000 1001 "s2" (Fin 19.1)
                                             (Some (Fin 5)) empty_world)
                                   empty_world))
    /\ (exists i', save i' 1001 empty_world =
                   Return (r', with_doc r' empty_world)).
Proof.
  apply (rest_accepted_bus_accepted 1000 1001 1500
           (stamped "s2" 19.1 5)
           (VObject {[ "temperature" := VNumber (Fin 19.1) ]})
           empty_world
           (with_doc (ingested 1000 1001 "s2" (Fin 19.1) (Some (Fin 5))
                               empty_world) empty_world)
           (ingested 1000 1001 "s2" (Fin 19.1) (Some (Fin 5)) empty_world)).
  - reflexivity.
  - reflexivity.
  - reflexivity.
Defined.

(* ===================================================================== *)
(** * Further properties: topics and the subscription *)
(* ===================================================================== *)

Section TopicLevels.

Lemma split_not_nil (sep : ascii) (s : string) : split sep s <> [].
Proof.
  destruct s as [|c s]; simpl; [discriminate|].
  destruct (Ascii.eqb c sep); [discriminate|].
  destruct (split sep s); discriminate.
Qed.

Lemma concat_cons_char (sep : string) (c : ascii) (h : string)
    (t : list string) :
  String.concat sep (String c h :: t) = String c (String.concat sep (h :: t)).
Proof. destruct t; reflexivity. Qed.

Lemma split_levels (s : string) :
  Forall (fun p => one_level p = true) (split "/" s).
Proof.
  induction s as [|c s IH]; simpl; [repeat constructor|].
  destruct (Ascii.eqb c "/") eqn:Hc; [constructor; [reflexivity | exact IH]|].
  destruct (split "/" s) as [|h t]; [repeat constructor; simpl; now rewrite Hc|].
  inversion IH as [|? ? Hh Ht]; subst.
  constructor; [simpl; now rewrite Hc, Hh | exact Ht].
Qed.

Lemma concat_split (s : string) : String.concat "/" (split "/" s) = s.
Proof.
  induction s as [|c s IH]; [reflexivity|]. simpl.
  destruct (Ascii.eqb c "/") eqn:Hc.
  - apply Ascii.eqb_eq in Hc as ->.
    pose proof (split_not_nil "/" s) as Hne.
    destruct (split "/" s) as [|h t]; [congruence|].
    change (String.concat "/" ("" :: h :: t))
      with (String "/" (String.concat "/" (h :: t))).
    now rewrite IH.
  - pose proof (split_not_nil "/" s) as Hne.
    destruct (split "/" s) as [|h t]; [congruence|].
    rewrite concat_cons_char. now rewrite IH.
Qed.

Lemma levels_match_cons (f t : string) (fs ts : list string) :
  Mqtt.levels_match (f :: fs) (t :: ts) =
  if String.eqb f "#" then true
  else (String.eqb f "+" || String.eqb f t) && Mqtt.levels_match fs ts.
Proof. reflexivity. Qed.

(** The four levels of the subscription against any levels. *)
Lemma levels_match_subscription (parts : list string) :
  Mqtt.levels_match ["iot"; "sensor"; "+"; "temperature"] parts = true ->
  exists d, parts = ["iot"; "sensor"; d; "temperature"].
Proof.
  destruct parts as [|a [|b [|d [|c [|x l]]]]];
    rewrite ?levels_match_cons;
    change (String.eqb "iot" "#") with false;
    change (String.eqb "iot" "+") with false;
    change (String.eqb "sensor" "#") with false;
    change (String.eqb "sensor" "+") with false;
    change (String.eqb "+" "#") with false;
    change (String.eqb "+" "+") with true;
    change (String.eqb "temperature" "#") with false;
    change (String.eqb "temperature" "+") with false;
    cbv iota; rewrite ?orb_false_l, ?orb_true_l, ?andb_true_l;
    change (Mqtt.levels_match [] []) with true;
    try change (Mqtt.levels_match [] (x :: l)) with false;
    try change (Mqtt.levels_match ["temperature"] []) with false;
    try change (Mqtt.levels_match ["+"; "temperature"] []) with false;
    try change (Mqtt.levels_match ["sensor"; "+"; "temperature"] [])
      with false;
    rewrite ?andb_false_r; try discriminate.
  intros H.
  apply andb_true_iff in H as [Ha H]. apply andb_true_iff in H as [Hb H].
  apply andb_true_iff in H as [Hc _].
  apply String.eqb_eq in Ha as <-. apply String.eqb_eq in Hb as <-.
  apply String.eqb_eq in Hc as <-. eauto.
Qed.

(** What the subscription lets through. *)
Lemma subscription_matches_inv (topic : string) :
  Mqtt.topic_matches Mqtt.subscription topic = true ->
  exists d, split "/" topic = ["iot"; "sensor"; d; "temperature"]
            /\ one_level d = true /\ topic = topic_of d.
Proof.
  unfold Mqtt.topic_matches.
  change (split "/" Mqtt.subscription)
    with ["iot"; "sensor"; "+"; "temperature"].
  intros (d & Hs)%levels_match_subscription.
  pose proof (split_levels topic) as Hl.
  pose proof (concat_split topic) as Hj.
  rewrite Hs in Hl, Hj.
  exists d. split; [exact Hs|]. split.
  - inversion Hl as [|? ? _ Hl1]; inversion Hl1 as [|? ? _ Hl2];
      inversion Hl2 as [|? ? Hd _]. exact Hd.
  - rewrite <- Hj. reflexivity.
Qed.

End TopicLevels.

(** X1 — Splitting a topic on [/] loses nothing: the levels, joined by
    [/] again, are the topic, and no level contains a [/]. *)
Theorem split_join_roundtrip (topic : string) :
  String.concat "/" (split "/" topic) = topic
  /\ Forall (fun p => one_level p = true) (split "/" topic)
  /\ split "/" topic <> [].
Proof.
  split; [apply concat_split|]. split; [apply split_levels|].
  apply split_not_nil.
Qed.

(** X2 — The subscription [iot/sensor/+/temperature] lets through
    exactly the topics made of four levels, the first two and the last
    as written and any single level, empty or not, in the third place. *)
Theorem subscription_exact (topic : string) :
  Mqtt.topic_matches Mqtt.subscription topic = true <->
  exists d, one_level d = true /\ topic = topic_of d.
Proof.
  split.
  - intros (d & _ & Hd & Ht)%subscription_matches_inv. eauto.
  - intros (d & Hd & ->). apply subscription_matches, Hd.
Qed.

(** X3 — The bus path writes only when the subscriber was started
    ([ENABLE_MQTT] is the text [true]) and the topic is that of a device
    with a non-empty identifier; on any other topic, or with the
    subscriber off, the store is left as it was. *)
Theorem bus_writes_only_subscribed (ENABLE_MQTT : option string)
    (now_ts now_created : Z) (topic : string) (parsed : option value)
    (w : World) :
  db (fst (Mqtt.publish ENABLE_MQTT now_ts now_created topic parsed w))
    <> db w ->
  ENABLE_MQTT = Some "true"
  /\ exists d, d <> "" /\ one_level d = true /\ topic = topic_of d.
Proof.
  unfold Mqtt.publish, Mqtt.subscriptions.
  destruct (decide (ENABLE_MQTT = Some "true")) as [->|Hoff];
    [|simpl; congruence].
  simpl existsb. rewrite orb_false_r.
  destruct (Mqtt.topic_matches Mqtt.subscription topic) eqn:Hm;
    [|simpl; congruence].
  apply subscription_matches_inv in Hm as (d & Hs & Hd & Ht).
  destruct (Mqtt.onMessage now_ts now_created topic parsed w)
    as [w' [od t|e tp]] eqn:Hon; simpl.
  - intros _. split; [reflexivity|].
    apply onMessage_saved_inv in Hon
      as (d' & data & _ & Hd' & Hne & _).
    rewrite Hs in Hd'. injection Hd' as <-. eauto.
  - apply onMessage_failed in Hon as [-> _]. congruence.
Qed.

Lemma bus_writes_only_subscribed_s2 :
  Some "true" = Some "true"
  /\ exists d, d <> "" /\ one_level d = true
               /\ "iot/sensor/s2/temperature" = topic_of d.
Proof.
  apply (bus_writes_only_subscribed (Some "true") 1000 1001
           "iot/sensor/s2/temperature"
           (Some (VObject {[ "temperature" := VNumber (Fin 19.1) ]}))
           empty_world).
  vm_compute. discriminate.
Defined.

(* ===================================================================== *)
(** * Further properties: the bus handler *)
(* ===================================================================== *)

Section Rounding.

Import SpecFloat.
Open Scope Z_scope.

Variables prec emax : Z.

Lemma shr_1_nonneg (mrs : shr_record) :
  0 <= shr_m mrs -> 0 <= shr_m (shr_1 mrs).
Proof.
  destruct mrs as [m r t]. simpl.
  destruct m as [|[p|p|]|[p|p|]]; simpl; lia.
Qed.

Lemma iter_shr_1_nonneg (p : positive) (mrs : shr_record) :
  0 <= shr_m mrs -> 0 <= shr_m (iter_pos shr_1 p mrs).
Proof.
  revert mrs. induction p as [p IH|p IH|]; intros mrs H; simpl.
  - apply IH, IH, shr_1_nonneg, H.
  - apply IH, IH, H.
  - apply shr_1_nonneg, H.
Qed.

Lemma shr_fexp_nonneg (m e : Z) (l : location) :
  0 <= m -> 0 <= shr_m (fst (shr_fexp prec emax m e l)).
Proof.
  intros H. unfold shr_fexp, shr.
  assert (H0 : 0 <= shr_m (shr_record_of_loc m l))
    by (destruct l as [|[]]; exact H).
  destruct (fexp prec emax (Zdigits2 m + e) - e); simpl;
    [exact H0 | apply iter_shr_1_nonneg, H0 | exact H0].
Qed.

Lemma round_nearest_even_nonneg (m : Z) (l : location) :
  0 <= m -> 0 <= round_nearest_even m l.
Proof.
  intros H. destruct l as [|[]]; simpl; try lia.
  destruct (Z.even m); lia.
Qed.

(** Rounding a non-negative mantissa never makes a NaN. *)
Lemma binary_round_aux_not_nan (sx : bool) (mx ex : Z) (lx : location) :
  0 <= mx -> binary_round_aux prec emax sx mx ex lx <> S754_nan.
Proof.
  intros H. unfold binary_round_aux.
  pose proof (shr_fexp_nonneg mx ex lx H) as H1.
  destruct (shr_fexp prec emax mx ex lx) as [mrs' e']. simpl in H1.
  pose proof (shr_fexp_nonneg
                (round_nearest_even (shr_m mrs') (loc_of_shr_record mrs'))
                e' loc_Exact
                (round_nearest_even_nonneg _ _ H1)) as H2.
  destruct (shr_fexp prec emax _ e' loc_Exact) as [mrs'' e'']. simpl in H2.
  destruct (shr_m mrs'') as [|q|q]; [discriminate | | lia].
  destruct (e'' <=? emax - prec); discriminate.
Qed.

Lemma binary_normalize_not_nan (m e : Z) (szero : bool) :
  binary_normalize prec emax m e szero <> S754_nan.
Proof.
  unfold binary_normalize, binary_round.
  destruct m as [|q|q]; [discriminate | |];
    destruct (shl_align q e _) as [mz ez];
    apply binary_round_aux_not_nan; lia.
Qed.

Lemma SFdiv_finite_not_nan (sx sy : bool) (mx my : positive) (ex ey : Z) :
  SFdiv prec emax (S754_finite sx mx ex) (S754_finite sy my ey) <> S754_nan.
Proof.
  unfold SFdiv, SFdiv_core_binary.
  set (s := ex - ey - _).
  set (m' := match s with Z0 => Zpos mx | Zpos _ => Z.shiftl (Zpos mx) s
                     | Zneg _ => 0 end).
  assert (Hm : 0 <= m').
  { unfold m'. destruct s; [lia | apply Z.shiftl_nonneg; lia | lia]. }
  assert (Hq : 0 <= fst (Z.div_eucl m' (Zpos my))).
  { change (fst (Z.div_eucl m' (Zpos my))) with (m' / Zpos my).
    apply Z.div_pos; lia. }
  destruct (Z.div_eucl m' (Zpos my)) as [q r]. simpl in Hq.
  now apply binary_round_aux_not_nan.
Qed.

End Rounding.

Section DigitPrefix.

Lemma of_double_NaN (x : SpecFloat.spec_float) :
  x <> SpecFloat.S754_nan -> isNaN (of_double x) = false.
Proof.
  destruct x as [s|s| |s m e]; simpl; intros H; try reflexivity.
  - now destruct s.
  - congruence.
  - now destruct (0 <=? e)%Z.
Qed.

(** Reading a decimal literal never gives NaN. *)
Lemma decimal_to_double_not_NaN (m k : Z) :
  isNaN (of_double (decimal_to_double m k)) = false.
Proof.
  apply of_double_NaN. unfold decimal_to_double.
  destruct (0 <=? k)%Z; [apply binary_normalize_not_nan|].
  destruct m; [discriminate | |]; apply SFdiv_finite_not_nan.
Qed.

Lemma take_digits_cons (c : ascii) (s : string) :
  is_digit c = true ->
  exists ds r, take_digits (String c s) = (c :: ds, r).
Proof.
  intros Hc. simpl. rewrite Hc.
  destruct (take_digits s) as [ds r]. eauto.
Qed.

(** A text that begins with a decimal digit has a numeric prefix. *)
Lemma parseFloat_string_digit (c : ascii) (s : string) :
  is_digit c = true -> isNaN (parseFloat_string (String c s)) = false.
Proof.
  intros Hc.
  destruct (take_digits_cons c s Hc) as (ds & r & Htd).
  assert (Hshape : trimStart (String c s) = String c s
                   /\ take_sign (String c s) = (1%Z, String c s)
                   /\ String.prefix "Infinity" (String c s) = false).
  { destruct c as [[] [] [] [] [] [] [] []]; try discriminate Hc;
      (split; [destruct s as [|c1 [|c2 s2]]; reflexivity|]);
      split; reflexivity. }
  destruct Hshape as (Ht & Hs & Hp).
  unfold parseFloat_string. rewrite Ht, Hs, Hp, Htd.
  destruct (match r with String "." r0 => take_digits r0 | _ => ([], r) end)
    as [fp r2].
  apply decimal_to_double_not_NaN.
Qed.

(** White space of more than one byte (here U+00A0, and U+FEFF with
    U+2003) is skipped, a literal beyond the range is an infinity, and
    an integer above 2^53 is rounded to a double. *)
Lemma parseFloat_string_examples :
  parseFloat_string " 42" = Fin 42
  /\ parseFloat_string "﻿  7.5x" = Fin (15 # 2)
  /\ parseFloat_string "1e999" = PosInf
  /\ parseFloat_string "-1e999" = NegInf
  /\ parseFloat_string "9007199254740993" = Fin 9007199254740992
  /\ parseFloat_string "1e-400" = Fin 0.
Proof. repeat split. Qed.

End DigitPrefix.

(** X4 — A payload that parses as JSON but is no object is never stored:
    [null] raises on the property read, and a text, a number, a boolean
    or an array has no [temperature], which [parseFloat] turns into NaN
    and the model refuses.  Nor is a payload that does not parse. *)
Theorem bus_non_object_dropped (now_ts now_created : Z) (topic : string)
    (parsed : option value) (w : World) :
  (forall m, parsed <> Some (VObject m)) ->
  exists e, Mqtt.onMessage now_ts now_created topic parsed w =
            (w, Mqtt.Failed e topic)
            /\ (parsed = None -> e = SyntaxError)
            /\ (parsed = Some VNull -> e = TypeError).
Proof.
  intros Hno. unfold Mqtt.onMessage.
  destruct parsed as [[| | | | | |m]|];
    try (exfalso; apply (Hno m); reflexivity);
    simpl; unfold save, validate; simpl;
    eexists; (split; [reflexivity | split; congruence]).
Qed.

Lemma bus_non_object_dropped_array :
  exists e, Mqtt.onMessage 1000 1001 "iot/sensor/s2/temperature"
              (Some (VArray [VNumber (Fin 19.1)])) empty_world =
            (empty_world, Mqtt.Failed e "iot/sensor/s2/temperature")
            /\ (Some (VArray [VNumber (Fin 19.1)]) = None -> e = SyntaxError)
            /\ (Some (VArray [VNumber (Fin 19.1)]) = Some VNull
                -> e = TypeError).
Proof.
  apply (bus_non_object_dropped 1000 1001 "iot/sensor/s2/temperature"
           (Some (VArray [VNumber (Fin 19.1)])) empty_world).
  intros m H. discriminate H.
Defined.

(** X5 — The bus handler reads one key of the body: two bodies with the
    same [temperature] have the same effect and leave the same log line,
    whatever else they carry (a [timestamp], a [deviceId]). *)
Theorem bus_reads_temperature_only (now_ts now_created : Z) (topic : string)
    (m1 m2 : gmap string value) (w : World) :
  m1 !! "temperature" = m2 !! "temperature" ->
  Mqtt.onMessage now_ts now_created topic (Some (VObject m1)) w =
  Mqtt.onMessage now_ts now_created topic (Some (VObject m2)) w.
Proof. intros H. unfold Mqtt.onMessage. simpl. now rewrite H. Qed.

Lemma bus_reads_temperature_only_stamped :
  Mqtt.onMessage 1000 1001 "iot/sensor/s2/temperature"
    (Some (VObject {[ "temperature" := VNumber (Fin 19.1);
                      "timestamp" := VNumber (Fin 5);
                      "deviceId" := VString "other" ]})) empty_world =
  Mqtt.onMessage 1000 1001 "iot/sensor/s2/temperature"
    (Some (VObject {[ "temperature" := VNumber (Fin 19.1) ]})) empty_world.
Proof.
  apply (bus_reads_temperature_only 1000 1001 "iot/sensor/s2/temperature"
           {[ "temperature" := VNumber (Fin 19.1);
              "timestamp" := VNumber (Fin 5);
              "deviceId" := VString "other" ]}
           {[ "temperature" := VNumber (Fin 19.1) ]} empty_world).
  reflexivity.
Defined.

(** X6 — Whatever the handler saves is one new document at the end of
    the store: its [deviceId] is the third level of the topic, its
    [temperature] what [parseFloat] made of the body's, its [timestamp]
    the server's clock at receipt, its [createdAt] the clock at
    construction, and its [_id] fresh. *)
Theorem bus_saved_document (now_ts now_created : Z) (topic : string)
    (parsed : option value) (w w' : World) (od : option string) (t : value) :
  Mqtt.onMessage now_ts now_created topic parsed w = (w', Mqtt.Saved od t) ->
  exists d r,
    db w' = (db w ++ [r])%list
    /\ split "/" topic !! 2%nat = Some d /\ od = Some d
    /\ deviceId r = d /\ d <> ""
    /\ temperature r = parseFloat t /\ isNaN (parseFloat t) = false
    /\ timestamp r = of_millis now_ts
    /\ createdAt r = now_created
    /\ _id r = nextId w.
Proof.
  intros (d & data & -> & Hd & Hne & _ & _ & Hn & _ & ->)%onMessage_saved_inv.
  exists d, (received now_ts now_created d t w). simpl.
  repeat split; auto.
Qed.

Lemma bus_saved_document_s2 :
  exists d r,
    db (with_doc (received 1000 1001 "s2" (VNumber (Fin 19.1)) empty_world)
                 empty_world) = (db empty_world ++ [r])%list
    /\ split "/" "iot/sensor/s2/temperature" !! 2%nat = Some d
    /\ Some "s2" = Some d
    /\ deviceId r = d /\ d <> ""
    /\ temperature r = parseFloat (VNumber (Fin 19.1))
    /\ isNaN (parseFloat (VNumber (Fin 19.1))) = false
    /\ timestamp r = of_millis 1000
    /\ createdAt r = 1001%Z
    /\ _id r = nextId empty_world.
Proof.
  apply (bus_saved_document 1000 1001 "iot/sensor/s2/temperature"
           (Some (VObject {[ "temperature" := VNumber (Fin 19.1) ]}))
           empty_world).
  reflexivity.
Defined.

(** X7 — A [temperature] sent as text that begins with a decimal digit
    is always taken on the bus path: [parseFloat] reads its numeric
    prefix and drops the rest, and the reading is stored with that
    number. *)
Theorem bus_stores_digit_text (now_ts now_created : Z) (d : string)
    (c : ascii) (s : string) (m : gmap string value) (w : World) :
  d <> "" -> one_level d = true -> is_digit c = true ->
  m !! "temperature" = Some (VString (String c s)) ->
  online w = true ->
  exists r,
    Mqtt.publish (Some "true") now_ts now_created (topic_of d)
                 (Some (VObject m)) w
      = (with_doc r w, Some (Mqtt.Saved (Some d) (VString (String c s))))
    /\ deviceId r = d
    /\ temperature r = parseFloat_string (String c s)
    /\ isNaN (temperature r) = false.
Proof.
  intros Hne Hd Hc Hm Hon.
  exists (received now_ts now_created d (VString (String c s)) w).
  rewrite (publish_subscribed _ _ d _ w Hd).
  rewrite (onMessage_ok now_ts now_created (topic_of d) d (VObject m)
             (VString (String c s)) w);
    auto using topic_of_deviceId, parseFloat_string_digit.
  - repeat split. simpl. now apply parseFloat_string_digit.
  - simpl. now rewrite Hm.
  - simpl. now apply parseFloat_string_digit.
Qed.

Lemma bus_stores_digit_text_12abc :
  exists r,
    Mqtt.publish (Some "true") 1000 1001 (topic_of "s2")
                 (Some (VObject {[ "temperature" := VString "12abc" ]}))
                 empty_world
      = (with_doc r empty_world,
         Some (Mqtt.Saved (Some "s2") (VString "12abc")))
    /\ deviceId r = "s2"
    /\ temperature r = parseFloat_string "12abc"
    /\ isNaN (temperature r) = false.
Proof.
  apply (bus_stores_digit_text 1000 1001 "s2" "1" "2abc"
           {[ "temperature" := VString "12abc" ]} empty_world).
  - discriminate.
  - reflexivity.
  - reflexivity.
  - reflexivity.
  - reflexivity.
Defined.

(* ===================================================================== *)
(** * Further properties: the REST ingest *)
(* ===================================================================== *)

Section SchemaIssues.

(** Each field parser reports one issue at most. *)
Lemma zod_deviceId_issue (v : value) (msgs : list string) :
  Zod.deviceId v = inr msgs -> exists msg, msgs = [msg].
Proof.
  destruct v as [| | | |s| |]; simpl; try (intros [= <-]; eauto).
  destruct s; simpl; [intros [= <-]; eauto | discriminate].
Qed.

Lemma zod_temperature_issue (v : value) (msgs : list string) :
  Zod.temperature v = inr msgs -> exists msg, msgs = [msg].
Proof.
  destruct v; simpl; try (intros [= <-]; eauto).
  destruct (isNaN n); [intros [= <-]; eauto | discriminate].
Qed.

Lemma zod_number_issue (v : value) (msgs : list string) :
  Zod.z_number v = inr msgs -> msgs = [Zod.invalid_type "number" v].
Proof.
  destruct v; simpl; try (intros [= <-]; reflexivity).
  destruct (isNaN n); [intros [= <-]; reflexivity | discriminate].
Qed.

Lemma zod_timestamp_issue (now : Z) (v : value) (msgs : list string) :
  Zod.timestamp now v = inr msgs -> msgs = [Zod.invalid_type "number" v].
Proof.
  destruct v; try apply zod_number_issue. discriminate.
Qed.

(** What the schema throws: the issues of the three fields, in the order
    of the shape, and at least one of them. *)
Lemma ingestSchema_parse_issues (now : Z) (m : gmap string value)
    (errors : list string) :
  Zod.ingestSchema_parse now (VObject m) = Throw (ZodError errors) ->
  errors = (Zod.issues (Zod.deviceId (field (VObject m) "deviceId"))
            ++ Zod.issues (Zod.temperature (field (VObject m) "temperature"))
            ++ Zod.issues (Zod.timestamp now (field (VObject m) "timestamp")))%list
  /\ errors <> [].
Proof.
  unfold Zod.ingestSchema_parse. simpl.
  destruct (Zod.deviceId _) as [d|ed] eqn:Hd;
    destruct (Zod.temperature _) as [t|et] eqn:Ht;
    destruct (Zod.timestamp _ _) as [ts|ets] eqn:Hts;
    try discriminate; intros [= <-]; (split; [reflexivity|]); simpl;
    try (apply zod_deviceId_issue in Hd as [? ->]);
    try (apply zod_temperature_issue in Ht as [? ->]);
    try (apply zod_timestamp_issue in Hts as ->);
    discriminate.
Qed.

Lemma ingestSchema_parse_errors_nonempty (now : Z) (body : value)
    (errors : list string) :
  Zod.ingestSchema_parse now body = Throw (ZodError errors) -> errors <> [].
Proof.
  destruct body as [| | | | | |m];
    try (intros [= <-]; discriminate).
  intros H. now apply ingestSchema_parse_issues in H.
Qed.

(** With the connection down, a body the schema accepts goes as far as
    the insert and no further. *)
Lemma ingestReading_offline (now_ts now_created : Z) (body : value)
    (d : string) (v : number) (ot : option number) (w : World) :
  valid_body body d v ot -> online w = false ->
  ingestReading now_ts now_created body w =
  (w, Next (MongoError "not connected")).
Proof.
  intros Hb Hoff. unfold ingestReading.
  rewrite (ingestSchema_parse_ok now_ts body d v ot Hb). simpl.
  assert (Hv : validate {| i_deviceId := Some d; i_temperature := v;
                           i_timestamp := stamp now_ts ot |} = []).
  { apply (validate_ok _ d); simpl;
      [reflexivity | apply Hb | apply Hb | apply stamp_not_NaN, Hb]. }
  unfold save. rewrite Hv. simpl. unfold insertOne. rewrite Hoff.
  reflexivity.
Qed.

End SchemaIssues.

(** X8 — Every ingest request ends in one of three ways.  A body the
    schema accepts is stored and answered 201 when the store is
    connected, and handed to [next] with the store's error, nothing
    written, when it is not; any other body is answered 400 with the
    schema's issues, nothing written.  The model's own validation never
    refuses what the schema accepted. *)
Theorem ingestReading_outcomes (now_ts now_created : Z) (body : value)
    (w : World) :
  (exists d v ot,
      valid_body body d v ot /\ online w = true
      /\ ingestReading now_ts now_created body w =
         (with_doc (ingested now_ts now_created d v ot w) w,
          Responded {| status := 201;
                       json := Success (ingested now_ts now_created d v ot w) |}))
  \/ (exists d v ot,
      valid_body body d v ot /\ online w = false
      /\ ingestReading now_ts now_created body w =
         (w, Next (MongoError "not connected")))
  \/ (exists errors,
      errors <> []
      /\ (forall d v ot, ~ valid_body body d v ot)
      /\ ingestReading now_ts now_created body w =
         (w, Responded {| status := 400; json := Failure (join errors) |})).
Proof.
  destruct (Zod.ingestSchema_parse now_ts body) as [x|e] eqn:Hp.
  - apply ingestSchema_parse_inv in Hp as (ot & Hb & _).
    destruct (online w) eqn:Hon.
    + left. exists (Zod.v_deviceId x), (Zod.v_temperature x), ot.
      split; [exact Hb|]. split; [reflexivity|].
      now apply ingestReading_ok.
    + right. left. exists (Zod.v_deviceId x), (Zod.v_temperature x), ot.
      split; [exact Hb|]. split; [reflexivity|].
      now apply (ingestReading_offline now_ts now_created body
                   (Zod.v_deviceId x) (Zod.v_temperature x) ot w).
  - right. right.
    destruct (ingestSchema_parse_throw _ _ _ Hp) as [errors ->].
    exists errors. split; [eapply ingestSchema_parse_errors_nonempty, Hp|].
    split; [|now apply ingestReading_refused].
    intros d v ot Hb.
    rewrite (ingestSchema_parse_ok now_ts body d v ot Hb) in Hp.
    discriminate.
Qed.

(** X9 — A [timestamp] that is present and is anything but a number (a
    date written as text, [null], a boolean) makes the request fail
    with 400 and the issue of that field; it is neither parsed nor
    replaced by the server's time, and nothing is written. *)
Theorem timestamp_must_be_number (now_ts now_created : Z)
    (m : gmap string value) (v : value) (w : World) :
  m !! "timestamp" = Some v -> v <> VUndefined ->
  (forall n, v = VNumber n -> isNaN n = true) ->
  exists errors,
    ingestReading now_ts now_created (VObject m) w =
      (w, Responded {| status := 400; json := Failure (join errors) |})
    /\ ("Expected number, received " +:+ Zod.parsedType v) ∈ errors.
Proof.
  intros Hm Hu Hn.
  assert (Hts : Zod.timestamp now_ts (field (VObject m) "timestamp")
                = inr ["Expected number, received " +:+ Zod.parsedType v]).
  { simpl. rewrite Hm. simpl.
    destruct v; try reflexivity; [congruence|].
    unfold Zod.timestamp, Zod.z_number, Zod.invalid_type, Zod.parsedType.
    pose proof (Hn n eq_refl) as Hnan.
    destruct (isNaN n); [reflexivity | discriminate]. }
  destruct (Zod.ingestSchema_parse now_ts (VObject m)) as [x|e] eqn:Hp.
  - apply ingestSchema_parse_inv in Hp as (ot & Hb & _).
    pose proof (vb_timestamp _ _ _ _ Hb) as Hf. simpl in Hf.
    rewrite Hm in Hf. simpl in Hf.
    destruct ot as [t|]; simpl in Hf; [|congruence].
    subst v. pose proof (Hn t eq_refl) as Hnan.
    pose proof (vb_stamp _ _ _ _ Hb t eq_refl). congruence.
  - destruct (ingestSchema_parse_throw _ _ _ Hp) as [errors ->].
    exists errors. split; [now apply ingestReading_refused|].
    apply ingestSchema_parse_issues in Hp as [-> _].
    rewrite Hts. simpl. rewrite !elem_of_app. right. right. left.
Qed.

Lemma timestamp_must_be_number_iso :
  exists errors,
    ingestReading 1000 1001
      (VObject {[ "deviceId" := VString "s1";
                  "temperature" := VNumber (Fin 23.5);
                  "timestamp" := VString "2026-01-30T12:00:00.000Z" ]})
      empty_world =
      (empty_world,
       Responded {| status := 400; json := Failure (join errors) |})
    /\ ("Expected number, received "
          +:+ Zod.parsedType (VString "2026-01-30T12:00:00.000Z")) ∈ errors.
Proof.
  apply (timestamp_must_be_number 1000 1001
           {[ "deviceId" := VString "s1";
              "temperature" := VNumber (Fin 23.5);
              "timestamp" := VString "2026-01-30T12:00:00.000Z" ]}
           (VString "2026-01-30T12:00:00.000Z") empty_world).
  - reflexivity.
  - discriminate.
  - intros n H. discriminate H.
Defined.

(** X10 — A refused body is answered once, with the issues of all its
    invalid fields together: every field the schema rejects has its
    message in the list, and the list has three messages at most. *)
Theorem every_invalid_field_reported (now_ts now_created : Z)
    (m : gmap string value) (w : World) :
  (forall d v ot, ~ valid_body (VObject m) d v ot) ->
  exists errors,
    ingestReading now_ts now_created (VObject m) w =
      (w, Responded {| status := 400; json := Failure (join errors) |})
    /\ (length errors <= 3)%nat
    /\ forall msg,
        Zod.deviceId (field (VObject m) "deviceId") = inr [msg]
        \/ Zod.temperature (field (VObject m) "temperature") = inr [msg]
        \/ Zod.timestamp now_ts (field (VObject m) "timestamp") = inr [msg] ->
        msg ∈ errors.
Proof.
  intros Hbad.
  destruct (Zod.ingestSchema_parse now_ts (VObject m)) as [x|e] eqn:Hp.
  - apply ingestSchema_parse_inv in Hp as (ot & Hb & _).
    now destruct (Hbad _ _ _ Hb).
  - destruct (ingestSchema_parse_throw _ _ _ Hp) as [errors ->].
    exists errors. split; [now apply ingestReading_refused|].
    apply ingestSchema_parse_issues in Hp as [-> _]. split.
    + destruct (Zod.deviceId _) as [?|ed] eqn:Hd;
        destruct (Zod.temperature _) as [?|et] eqn:Ht;
        destruct (Zod.timestamp _ _) as [?|ets] eqn:Hts; simpl;
        try (apply zod_deviceId_issue in Hd as [? ->]);
        try (apply zod_temperature_issue in Ht as [? ->]);
        try (apply zod_timestamp_issue in Hts as ->); simpl; lia.
    + intros msg [H | [H | H]]; rewrite H; simpl;
        rewrite ?elem_of_app, ?elem_of_cons; auto.
Qed.

Lemma every_invalid_field_reported_empty_body :
  exists errors,
    ingestReading 1000 1001 (VObject ∅) empty_world =
      (empty_world,
       Responded {| status := 400; json := Failure (join errors) |})
    /\ (length errors <= 3)%nat
    /\ forall msg,
        Zod.deviceId (field (VObject ∅) "deviceId") = inr [msg]
        \/ Zod.temperature (field (VObject ∅) "temperature") = inr [msg]
        \/ Zod.timestamp 1000 (field (VObject ∅) "timestamp") = inr [msg] ->
        msg ∈ errors.
Proof.
  apply (every_invalid_field_reported 1000 1001 ∅ empty_world).
  intros d v ot Hb. pose proof (vb_deviceId _ _ _ _ Hb) as H.
  discriminate H.
Defined.

(* ===================================================================== *)
(** * Further properties: the store under the handlers *)
(* ===================================================================== *)

Section HandlerSteps.

(** One run of the REST handler leaves the store alone or appends one
    document, which is sound, fresh, and of the device named in the
    body. *)
Lemma ingestReading_step (now_ts now_created : Z) (body : value) (w : World) :
  fst (ingestReading now_ts now_created body w) = w
  \/ exists r, fst (ingestReading now_ts now_created body w) = with_doc r w
               /\ _id r = nextId w /\ sound_doc r
               /\ field body "deviceId" = VString (deviceId r)
               /\ online w = true.
Proof.
  destruct (ingestReading now_ts now_created body w) as [w' o] eqn:H.
  unfold ingestReading in H.
  destruct (Zod.ingestSchema_parse now_ts body) as [x|e] eqn:Hp; simpl in H;
    [|injection H as <- _; auto].
  destruct (save _ now_created w) as [[r w'']|e] eqn:Hs; simpl in H;
    [|injection H as <- _; auto].
  injection H as <- _. right. exists r.
  apply save_inv in Hs as (d & Hd & Hv & Hon & -> & ->). simpl in Hd.
  injection Hd as <-.
  apply validate_inv in Hv as ((d' & [= <-] & Hne) & Ht & Hts).
  apply ingestSchema_parse_inv in Hp as (ot & Hb & _).
  simpl. split; [reflexivity|]. split; [reflexivity|].
  split; [repeat split; assumption|]. split; [apply Hb | exact Hon].
Qed.

(** The same for the bus handler, the device being the third level of
    the topic. *)
Lemma onMessage_step (now_ts now_created : Z) (topic : string)
    (parsed : option value) (w : World) :
  fst (Mqtt.onMessage now_ts now_created topic parsed w) = w
  \/ exists r, fst (Mqtt.onMessage now_ts now_created topic parsed w)
               = with_doc r w
               /\ _id r = nextId w /\ sound_doc r
               /\ split "/" topic !! 2%nat = Some (deviceId r)
               /\ online w = true.
Proof.
  destruct (Mqtt.onMessage now_ts now_created topic parsed w)
    as [w' [od t|e tp]] eqn:H; simpl.
  - right.
    apply onMessage_saved_inv in H
      as (d & data & _ & Hd & Hne & _ & _ & Hn & Hon & ->).
    exists (received now_ts now_created d t w). simpl.
    repeat split; auto.
  - left. now apply onMessage_failed in H as [-> _].
Qed.

Lemma sound_with_doc (r : doc) (w : World) :
  sound w -> sound_doc r -> sound (with_doc r w).
Proof.
  unfold sound. simpl. intros Hw Hr. apply Forall_app. split; [exact Hw|].
  constructor; [exact Hr | constructor].
Qed.

Lemma distinct_ids_with_doc (r : doc) (w : World) :
  wf w -> distinct_ids w -> _id r = nextId w ->
  wf (with_doc r w) /\ distinct_ids (with_doc r w).
Proof.
  intros Hwf Hnd Hid. split; [now apply wf_with_doc|].
  unfold distinct_ids. simpl. rewrite map_app. simpl.
  apply NoDup_app. split; [exact Hnd|]. split.
  - intros x Hx ->%list_elem_of_singleton.
    apply list_elem_of_In, in_map_iff in Hx as (y & Hy & Hin).
    unfold wf in Hwf. rewrite Forall_forall in Hwf.
    apply list_elem_of_In, Hwf in Hin. lia.
  - apply NoDup_singleton.
Qed.

End HandlerSteps.

Section QueryFacts.

Lemma getLatestReading_200_inv (d : string) (w : World) (r : doc) :
  getLatestReading d w = Responded {| status := 200; json := Success r |} ->
  online w = true /\ head (sort_desc (ties w) (find d (db w))) = Some r.
Proof.
  unfold getLatestReading, findOne_latest.
  destruct (online w); simpl; [|discriminate].
  destruct (head (sort_desc (ties w) (find d (db w)))); [|discriminate].
  intros [= <-]. auto.
Qed.

Lemma getLatestReading_online (d : string) (w : World) :
  online w = true ->
  getLatestReading d w =
  match head (sort_desc (ties w) (find d (db w))) with
  | None => not_found
  | Some r => Responded {| status := 200; json := Success r |}
  end.
Proof.
  intros Hon. unfold getLatestReading, findOne_latest. rewrite Hon. simpl.
  destruct (head (sort_desc (ties w) (find d (db w)))); reflexivity.
Qed.

(** A document of another device does not show in the query. *)
Lemma getLatestReading_other (d : string) (r : doc) (w : World) :
  deviceId r <> d ->
  getLatestReading d (with_doc r w) = getLatestReading d w.
Proof.
  intros Hne. unfold getLatestReading, findOne_latest. simpl.
  rewrite find_app. unfold find at 2.
  rewrite filter_cons_False by exact Hne. rewrite filter_nil, app_nil_r.
  reflexivity.
Qed.

(** One more document never lowers the timestamp of the latest. *)
Lemma getLatestReading_grows (d : string) (x r : doc) (w : World) :
  getLatestReading d w = Responded {| status := 200; json := Success r |} ->
  exists r', getLatestReading d (with_doc x w) =
             Responded {| status := 200; json := Success r' |}
             /\ num_leb (timestamp r) (timestamp r') = true.
Proof.
  intros [Hon Hh]%getLatestReading_200_inv.
  apply head_sort_desc_max in Hh as [Hin _].
  rewrite (getLatestReading_online d (with_doc x w)) by exact Hon.
  simpl db. simpl ties. rewrite find_app.
  destruct (head (sort_desc (ties w) (find d (db w) ++ find d [x])))
    as [r'|] eqn:Hh'.
  - exists r'. split; [reflexivity|].
    apply head_sort_desc_max in Hh' as [_ Hmax].
    apply Hmax, elem_of_app. now left.
  - apply head_sort_desc_nil in Hh'.
    destruct (find d (db w)); [inversion Hin | discriminate].
Qed.

End QueryFacts.

(** X11 — With the connection to the database down nothing is written
    and nothing is answered from the store: a valid ingest request and a
    retrieval are handed to [next] with the store's error, a bus
    message is logged as failed. *)
Theorem store_down_surfaces (now_ts now_created : Z) (body : value)
    (topic : string) (parsed : option value) (d : string) (w : World) :
  online w = false ->
  fst (ingestReading now_ts now_created body w) = w
  /\ (forall d' v ot, valid_body body d' v ot ->
        snd (ingestReading now_ts now_created body w) =
        Next (MongoError "not connected"))
  /\ getLatestReading d w = Next (MongoError "not connected")
  /\ exists e, Mqtt.onMessage now_ts now_created topic parsed w =
               (w, Mqtt.Failed e topic).
Proof.
  intros Hoff. split; [|split; [|split]].
  - destruct (ingestReading_step now_ts now_created body w)
      as [H | (r & _ & _ & _ & _ & Hon)]; [exact H | congruence].
  - intros d' v ot Hb.
    now rewrite (ingestReading_offline now_ts now_created body d' v ot w).
  - unfold getLatestReading, findOne_latest. now rewrite Hoff.
  - destruct (Mqtt.onMessage now_ts now_created topic parsed w)
      as [w' [od t|e tp]] eqn:H.
    + apply onMessage_saved_inv in H
        as (? & ? & _ & _ & _ & _ & _ & _ & Hon & _). congruence.
    + apply onMessage_failed in H as [-> ->]. eauto.
Qed.

Lemma store_down_surfaces_example :
  let down := {| db := []; nextId := 0; online := false;
                 ties := fun _ _ => true |} in
  fst (ingestReading 1000 1001 (stamped "s1" 21 2000) down) = down
  /\ (forall d' v ot, valid_body (stamped "s1" 21 2000) d' v ot ->
        snd (ingestReading 1000 1001 (stamped "s1" 21 2000) down) =
        Next (MongoError "not connected"))
  /\ getLatestReading "s1" down = Next (MongoError "not connected")
  /\ exists e, Mqtt.onMessage 1000 1001 "iot/sensor/s1/temperature"
                 (Some (VObject {[ "temperature" := VNumber (Fin 21) ]})) down =
               (down, Mqtt.Failed e "iot/sensor/s1/temperature").
Proof.
  apply (store_down_surfaces 1000 1001 (stamped "s1" 21 2000)
           "iot/sensor/s1/temperature"
           (Some (VObject {[ "temperature" := VNumber (Fin 21) ]})) "s1"
           {| db := []; nextId := 0; online := false;
              ties := fun _ _ => true |}).
  reflexivity.
Defined.

(** X12 — What the handlers store is always a reading: starting from a
    store in which every document has a non-empty [deviceId] and a
    [temperature] and [timestamp] that are not NaN, both handlers leave
    such a store. *)
Theorem stored_readings_sound (now_ts now_created : Z) (body : value)
    (topic : string) (parsed : option value) (w : World) :
  sound w ->
  sound (fst (ingestReading now_ts now_created body w))
  /\ sound (fst (Mqtt.onMessage now_ts now_created topic parsed w)).
Proof.
  intros Hs. split.
  - destruct (ingestReading_step now_ts now_created body w)
      as [-> | (r & -> & _ & Hr & _)];
      [exact Hs | now apply sound_with_doc].
  - destruct (onMessage_step now_ts now_created topic parsed w)
      as [-> | (r & -> & _ & Hr & _)];
      [exact Hs | now apply sound_with_doc].
Qed.

Lemma stored_readings_sound_example :
  sound (fst (ingestReading 1000 1001 (stamped "s1" 21 2000) one_reading))
  /\ sound (fst (Mqtt.onMessage 1000 1001 "iot/sensor/s1/temperature"
                   (Some (VObject {[ "temperature" := VString "22.5" ]}))
                   one_reading)).
Proof.
  apply (stored_readings_sound 1000 1001 (stamped "s1" 21 2000)
           "iot/sensor/s1/temperature"
           (Some (VObject {[ "temperature" := VString "22.5" ]})) one_reading).
  repeat constructor. discriminate.
Defined.

(** X13 — The handlers only append.  After either of them the documents
    that were stored are still there, unchanged and in the same places,
    followed by one new document at most; nothing is updated or
    deleted. *)
Theorem handlers_append_only (now_ts now_created : Z) (body : value)
    (topic : string) (parsed : option value) (w : World) :
  (exists k, db (fst (ingestReading now_ts now_created body w))
             = (db w ++ k)%list /\ (length k <= 1)%nat)
  /\ (exists k, db (fst (Mqtt.onMessage now_ts now_created topic parsed w))
                = (db w ++ k)%list /\ (length k <= 1)%nat).
Proof.
  split.
  - destruct (ingestReading_step now_ts now_created body w)
      as [-> | (r & -> & _)].
    + exists []. rewrite app_nil_r. split; [reflexivity | simpl; lia].
    + exists [r]. split; [reflexivity | simpl; lia].
  - destruct (onMessage_step now_ts now_created topic parsed w)
      as [-> | (r & -> & _)].
    + exists []. rewrite app_nil_r. split; [reflexivity | simpl; lia].
    + exists [r]. split; [reflexivity | simpl; lia].
Qed.

(** X14 — Identifiers stay unique: in a store whose [_id]s are distinct
    and below the supply, both handlers leave the [_id]s distinct and
    below the supply. *)
Theorem ids_stay_distinct (now_ts now_created : Z) (body : value)
    (topic : string) (parsed : option value) (w : World) :
  wf w -> distinct_ids w ->
  (wf (fst (ingestReading now_ts now_created body w))
   /\ distinct_ids (fst (ingestReading now_ts now_created body w)))
  /\ (wf (fst (Mqtt.onMessage now_ts now_created topic parsed w))
      /\ distinct_ids (fst (Mqtt.onMessage now_ts now_created topic parsed w))).
Proof.
  intros Hwf Hnd. split.
  - destruct (ingestReading_step now_ts now_created body w)
      as [-> | (r & -> & Hid & _)];
      [auto | now apply distinct_ids_with_doc].
  - destruct (onMessage_step now_ts now_created topic parsed w)
      as [-> | (r & -> & Hid & _)];
      [auto | now apply distinct_ids_with_doc].
Qed.

Lemma ids_stay_distinct_example :
  (wf (fst (ingestReading 1000 1001 (stamped "s1" 21 2000) one_reading))
   /\ distinct_ids
        (fst (ingestReading 1000 1001 (stamped "s1" 21 2000) one_reading)))
  /\ (wf (fst (Mqtt.onMessage 1000 1001 "iot/sensor/s1/temperature"
                 (Some (VObject {[ "temperature" := VNumber (Fin 22) ]}))
                 one_reading))
      /\ distinct_ids
           (fst (Mqtt.onMessage 1000 1001 "iot/sensor/s1/temperature"
                   (Some (VObject {[ "temperature" := VNumber (Fin 22) ]}))
                   one_reading))).
Proof.
  apply (ids_stay_distinct 1000 1001 (stamped "s1" 21 2000)
           "iot/sensor/s1/temperature"
           (Some (VObject {[ "temperature" := VNumber (Fin 22) ]}))
           one_reading).
  - vm_compute. repeat constructor.
  - vm_compute. apply NoDup_singleton.
Defined.

(* ===================================================================== *)
(** * Further properties: retrieval *)
(* ===================================================================== *)

(** X15 — While the store is connected the retrieval has two answers
    and no other: 404 exactly when the device has no stored document,
    and otherwise 200 with a document of that device that no document
    of the device exceeds in [timestamp]. *)
Theorem latest_answers (d : string) (w : World) :
  online w = true ->
  (find d (db w) = [] /\ getLatestReading d w = not_found)
  \/ (find d (db w) <> []
      /\ exists r, getLatestReading d w =
                   Responded {| status := 200; json := Success r |}
                   /\ is_latest d (db w) r).
Proof.
  intros Hon. rewrite (getLatestReading_online d w Hon).
  destruct (head (sort_desc (ties w) (find d (db w)))) as [r|] eqn:Hh.
  - right. split.
    + intros Hnil. rewrite Hnil in Hh. discriminate.
    + exists r. split; [reflexivity|].
      apply findOne_latest_is_latest. unfold findOne_latest.
      rewrite Hon. simpl. now rewrite Hh.
  - left. now apply head_sort_desc_nil in Hh.
Qed.

Lemma latest_answers_out_of_order :
  (find "s9" (db out_of_order) = []
   /\ getLatestReading "s9" out_of_order = not_found)
  \/ (find "s9" (db out_of_order) <> []
      /\ exists r, getLatestReading "s9" out_of_order =
                   Responded {| status := 200; json := Success r |}
                   /\ is_latest "s9" (db out_of_order) r).
Proof. apply (latest_answers "s9" out_of_order). reflexivity. Defined.

(** X16 — Devices do not interfere: an ingest request for another
    device, or a bus message on the topic of another device, leaves the
    answer of the retrieval for this device as it was. *)
Theorem other_devices_untouched (now_ts now_created : Z) (body : value)
    (topic : string) (parsed : option value) (d : string) (w : World) :
  field body "deviceId" <> VString d ->
  split "/" topic !! 2%nat <> Some d ->
  getLatestReading d (fst (ingestReading now_ts now_created body w))
    = getLatestReading d w
  /\ getLatestReading d (fst (Mqtt.onMessage now_ts now_created topic parsed w))
     = getLatestReading d w.
Proof.
  intros Hb Ht. split.
  - destruct (ingestReading_step now_ts now_created body w)
      as [-> | (r & -> & _ & _ & Hd & _)]; [reflexivity|].
    apply getLatestReading_other. congruence.
  - destruct (onMessage_step now_ts now_created topic parsed w)
      as [-> | (r & -> & _ & _ & Hd & _)]; [reflexivity|].
    apply getLatestReading_other. congruence.
Qed.

Lemma other_devices_untouched_s1_s2 :
  getLatestReading "s1"
    (fst (ingestReading 1000 1001 (stamped "s2" 30 9999) one_reading))
    = getLatestReading "s1" one_reading
  /\ getLatestReading "s1"
       (fst (Mqtt.onMessage 1000 1001 "iot/sensor/s2/temperature"
               (Some (VObject {[ "temperature" := VNumber (Fin 30) ]}))
               one_reading))
     = getLatestReading "s1" one_reading.
Proof.
  apply (other_devices_untouched 1000 1001 (stamped "s2" 30 9999)
           "iot/sensor/s2/temperature"
           (Some (VObject {[ "temperature" := VNumber (Fin 30) ]}))
           "s1" one_reading).
  - vm_compute. discriminate.
  - vm_compute. discriminate.
Defined.

(** X17 — The latest reading of a device never goes back in time: once
    the retrieval answers with a reading, after any further ingest
    request or bus message it answers with a reading whose [timestamp]
    is not smaller. *)
Theorem latest_never_goes_back (now_ts now_created : Z) (body : value)
    (topic : string) (parsed : option value) (d : string) (w : World)
    (r : doc) :
  getLatestReading d w = Responded {| status := 200; json := Success r |} ->
  (exists r1,
      getLatestReading d (fst (ingestReading now_ts now_created body w)) =
        Responded {| status := 200; json := Success r1 |}
      /\ num_leb (timestamp r) (timestamp r1) = true)
  /\ (exists r2,
        getLatestReading d
          (fst (Mqtt.onMessage now_ts now_created topic parsed w)) =
          Responded {| status := 200; json := Success r2 |}
        /\ num_leb (timestamp r) (timestamp r2) = true).
Proof.
  intros H. split.
  - destruct (ingestReading_step now_ts now_created body w)
      as [-> | (x & -> & _)].
    + exists r. split; [exact H | apply num_leb_refl].
    + now apply getLatestReading_grows.
  - destruct (onMessage_step now_ts now_created topic parsed w)
      as [-> | (x & -> & _)].
    + exists r. split; [exact H | apply num_leb_refl].
    + now apply getLatestReading_grows.
Qed.

Lemma latest_never_goes_back_older :
  (exists r1,
      getLatestReading "s1"
        (fst (ingestReading 0 9003 (stamped "s1" 20 1000) one_reading)) =
        Responded {| status := 200; json := Success r1 |}
      /\ num_leb (Fin 2000) (timestamp r1) = true)
  /\ (exists r2,
        getLatestReading "s1"
          (fst (Mqtt.onMessage 0 9003 "iot/sensor/s1/temperature"
                  (Some (VObject {[ "temperature" := VNumber (Fin 20) ]}))
                  one_reading)) =
          Responded {| status := 200; json := Success r2 |}
        /\ num_leb (Fin 2000) (timestamp r2) = true).
Proof.
  apply (latest_never_goes_back 0 9003 (stamped "s1" 20 1000)
           "iot/sensor/s1/temperature"
           (Some (VObject {[ "temperature" := VNumber (Fin 20) ]}))
           "s1" one_reading
           {| _id := 0; deviceId := "s1"; temperature := Fin 21;
              timestamp := Fin 2000; createdAt := 9001 |}).
  reflexivity.
Defined.

(** X18 — The sort of the query is a sort, whatever the database does
    with ties: its result holds the same documents as its input, each
    as often, in descending order of [timestamp]. *)
Theorem sort_desc_sorted (tie : doc -> doc -> bool) (l : list doc) :
  Permutation (sort_desc tie l) l /\ StronglySorted desc (sort_desc tie l).
Proof.
  split; [apply sort_desc_perm | apply sort_desc_strongly_sorted].
Qed.
